(** * Freya: the sequential [Model] of [freya/model/__init__.py]

    A shallow embedding of the class [Model] (methods [add], [predict],
    [train] and [_run_epoch]) together with the properties of its
    forward/backward orchestration.

    The layers and the loss units are external Python objects.  They are
    consumed through their methods only, so they appear here as two
    interfaces ([Layer], [Loss]).  Layer objects are mutable and are held by
    reference: the model stores addresses into a heap of objects, so that a
    layer which was added twice is one object visited twice.  Every call the
    model makes on an external object is recorded, in program order, in an
    event log; this is the record an instrumented mock layer would keep. *)

From Stdlib Require Import ZArith String.
From stdpp Require Import base tactics option list functions.

Local Open Scope string_scope.
Local Open Scope list_scope.

(** ** Python-level data *)

(** A reference to a layer object. *)
Definition addr := nat.

(** The exceptions the model can raise.  [ValueError] is the one raised by the
    [raise] statement of [_run_epoch]; [UnboundLocalError] is the read of a
    local variable that no assignment has bound; [IndexError] is an
    out-of-range subscript of [self.layers]; [UnpackError] stands for the
    exception of a failed unpacking assignment [gradient, dW, dB = ...]
    (Python raises [TypeError] when the value is not iterable and
    [ValueError] when it does not have exactly three items). *)
Inductive exn : Type :=
| ValueError (msg : string)
| UnboundLocalError (name : string)
| IndexError
| UnpackError.

(** The two loss classes imported from [freya.loss]. *)
Inductive loss_kind : Type := BinaryCrossEntropy | MeanSquaredError.

(** The interface of a layer object: the attribute [type] and the methods
    [forward], [backward] and [optimize].  A method receives the object's
    current state and returns its new state (layers cache their inputs and
    own their parameters) next to the returned value. *)
Class Layer (Val obj : Type) : Type := {
  type : obj -> string;
  forward : obj -> Val -> obj * Val;
  backward : obj -> Val -> obj * Val;
  optimize : obj -> Val -> Val -> Val -> obj
}.

(** The interface of a loss unit: construction from the prediction and the
    targets, and the parameterless methods [forward] and [backward]. *)
Class Loss (Val lossobj : Type) : Type := {
  loss_new : loss_kind -> Val -> Val -> lossobj;
  loss_forward : lossobj -> lossobj * Val;
  loss_backward : lossobj -> lossobj * Val
}.

(** Python's iteration protocol on a value, as used by an unpacking
    assignment: [None] when the value is not iterable, otherwise its items. *)
Class Iterable (Val : Type) : Type := {
  iter : Val -> option (list Val)
}.

(** [enumerate(l)], and [range(n)] for an integer [n]. *)
Fixpoint enumerate_from {A : Type} (k : nat) (l : list A) : list (nat * A) :=
  match l with
  | [] => []
  | x :: l' => (k, x) :: enumerate_from (S k) l'
  end.

Definition enumerate {A : Type} (l : list A) : list (nat * A) :=
  enumerate_from 0 l.

Definition range (n : Z) : list Z :=
  map Z.of_nat (seq 0 (Z.to_nat n)).

Section Model.
Context {Val obj lossobj : Type}.
Context `{!Layer Val obj, !Loss Val lossobj, !Iterable Val}.

(** ** Events, state and the monad of the embedding *)

(** One event per interaction of the model with the outside: a method call
    on a layer (with its argument and the value it returned), the read of a
    layer's [type], the three operations on the loss unit, and a line
    printed by [train]. *)
Inductive event : Type :=
| EForward (a : addr) (x y : Val)
| EGetType (a : addr) (t : string)
| EBackward (a : addr) (g r : Val)
| EOptimize (a : addr) (dW dB lr : Val)
| ELossNew (k : loss_kind) (predicted target : Val)
| ELossForward (error : Val)
| ELossBackward (gradient : Val)
| EPrint (epoch : Z) (loss : Val).

(** The fields [self.layers] and [self.loss] of the model, the heap of
    layer objects and the event log. *)
Record state : Type := State {
  layers : list addr;
  loss : list Val;
  heap : addr -> obj;
  log : list event
}.

Inductive result (A : Type) : Type :=
| Ok (a : A)
| Raise (e : exn).
Global Arguments Ok {A} a.
Global Arguments Raise {A} e.

(** A computation runs on a state and leaves a state behind also when it
    raises: what was mutated before the exception stays mutated. *)
Definition M (A : Type) : Type := state -> result A * state.

Definition ret {A : Type} (a : A) : M A := fun s => (Ok a, s).

Definition bind {A B : Type} (m : M A) (f : A -> M B) : M B := fun s =>
  match m s with
  | (Ok a, s') => f a s'
  | (Raise e, s') => (Raise e, s')
  end.

Definition raise {A : Type} (e : exn) : M A := fun s => (Raise e, s).

Definition get : M state := fun s => (Ok s, s).

Definition emit (e : event) : M unit := fun s =>
  (Ok tt, State (layers s) (loss s) (heap s) (log s ++ [e])).

Definition store (a : addr) (o : obj) : M unit := fun s =>
  (Ok tt, State (layers s) (loss s) (<[a:=o]> (heap s)) (log s)).

End Model.

Declare Scope model_scope.
Delimit Scope model_scope with model.
Notation "'let*' x ':=' c1 'in' c2" := (bind c1 (fun x => c2))
  (at level 100, x pattern, c1 at next level, right associativity)
  : model_scope.
Notation "c1 ;; c2" := (bind c1 (fun _ => c2))
  (at level 100, right associativity) : model_scope.

Section Methods.
Context {Val obj lossobj : Type}.
Context `{!Layer Val obj, !Loss Val lossobj, !Iterable Val}.
Local Open Scope model_scope.

Abbreviation M := (@M Val obj).
Abbreviation state := (@state Val obj).
Abbreviation event := (@event Val).

(** ** Calls on external objects *)

(** [self.layers[i]] *)
Definition layer_at (i : nat) : M addr := fun s =>
  match layers s !! i with
  | Some a => (Ok a, s)
  | None => (Raise IndexError, s)
  end.

(** [o.type] for the layer object at [a] *)
Definition get_type (a : addr) : M string :=
  let* s := get in
  let t := type (heap s a) in
  emit (EGetType a t) ;; ret t.

(** [o.forward(x)] *)
Definition call_forward (a : addr) (x : Val) : M Val :=
  let* s := get in
  let '(o, y) := forward (heap s a) x in
  store a o ;; emit (EForward a x y) ;; ret y.

(** [o.backward(g)] *)
Definition call_backward (a : addr) (g : Val) : M Val :=
  let* s := get in
  let '(o, r) := backward (heap s a) g in
  store a o ;; emit (EBackward a g r) ;; ret r.

(** [o.optimize(dW, dB, learning_rate)] *)
Definition call_optimize (a : addr) (dW dB lr : Val) : M unit :=
  let* s := get in
  store a (optimize (heap s a) dW dB lr) ;; emit (EOptimize a dW dB lr).

(** [K(predicted, target)] for a loss class [K], and the two methods of the
    loss unit, which is a local object of [_run_epoch]. *)
Definition new_loss (k : loss_kind) (predicted target : Val) : M lossobj :=
  emit (ELossNew k predicted target) ;; ret (loss_new k predicted target).

Definition call_loss_forward (l : lossobj) : M (lossobj * Val) :=
  let '(l', error) := loss_forward l in
  emit (ELossForward error) ;; ret (l', error).

Definition call_loss_backward (l : lossobj) : M (lossobj * Val) :=
  let '(l', gradient) := loss_backward l in
  emit (ELossBackward gradient) ;; ret (l', gradient).

(** The read of a local variable that may still be unbound. *)
Definition read_local (name : string) (v : option Val) : M Val :=
  match v with
  | Some x => ret x
  | None => raise (UnboundLocalError name)
  end.

(** [gradient, dW, dB = r] *)
Definition unpack3 (r : Val) : M (Val * Val * Val) :=
  match iter r with
  | Some [g; dW; dB] => ret (g, dW, dB)
  | _ => raise UnpackError
  end.

(** [self.loss.append(error)] *)
Definition append_loss (error : Val) : M unit := fun s =>
  (Ok tt, State (layers s) (loss s ++ [error]) (heap s) (log s)).

(** [print(f'Epoch: {epoch}. Loss: {loss}')] *)
Definition print (epoch : Z) (loss : Val) : M unit :=
  emit (EPrint epoch loss).

(** ** The methods of [Model] *)

(** [Model()] with the heap of the objects created so far. *)
Definition init (h : addr -> obj) : state := State [] [] h [].

(** [add]: [self.layers.append(layer)] *)
Definition add (layer : addr) : M unit := fun s =>
  (Ok tt, State (layers s ++ [layer]) (loss s) (heap s) (log s)).

(** The forward loop shared by [predict] and [_run_epoch]:
    [for i, _ in enumerate(self.layers):
         forward = self.layers[i].forward(X); X = forward].
    The loop state is the pair of the locals [X] and [forward]; [forward]
    is unbound ([None]) until the body has run once. *)
Fixpoint forward_loop (idx : list (nat * addr)) (X : Val)
    (forward_var : option Val) : M (Val * option Val) :=
  match idx with
  | [] => ret (X, forward_var)
  | (i, _) :: idx' =>
      let* a := layer_at i in
      let* y := call_forward a X in
      forward_loop idx' y (Some y)
  end.

(** [predict] *)
Definition predict (X : Val) : M Val :=
  let* s := get in
  let* (_, forward_var) := forward_loop (enumerate (layers s)) X None in
  read_local "forward" forward_var.

(** The [if]/[elif]/[else] of [_run_epoch] that selects the loss class.
    The local [forward] is read only in the two branches that build a loss
    unit. *)
Definition loss_dispatch (loss_function : string)
    (forward_var : option Val) (Y : Val) : M lossobj :=
  if String.eqb loss_function "BinaryCrossEntropy" then
    let* out := read_local "forward" forward_var in
    new_loss BinaryCrossEntropy out Y
  else if String.eqb loss_function "MeanSquaredError" then
    let* out := read_local "forward" forward_var in
    new_loss MeanSquaredError out Y
  else
    raise (ValueError (loss_function ++ " is not supported.")).

(** The body of the backpropagation loop for the index [i]. *)
Definition backward_body (i : nat) (gradient learning_rate : Val) : M Val :=
  let* a := layer_at i in
  let* t := get_type a in
  if negb (String.eqb t "Linear") then
    let* a := layer_at i in
    call_backward a gradient
  else
    let* a := layer_at i in
    let* r := call_backward a gradient in
    let* (gradient', dW, dB) := unpack3 r in
    let* a := layer_at i in
    call_optimize a dW dB learning_rate ;;
    ret gradient'.

(** [for i, _ in reversed(list(enumerate(self.layers))): ...]; the loop
    state is the local [gradient]. *)
Fixpoint backward_loop (idx : list (nat * addr))
    (gradient learning_rate : Val) : M Val :=
  match idx with
  | [] => ret gradient
  | (i, _) :: idx' =>
      let* gradient' := backward_body i gradient learning_rate in
      backward_loop idx' gradient' learning_rate
  end.

(** [_run_epoch] *)
Definition _run_epoch (X Y learning_rate : Val) (loss_function : string)
    : M Val :=
  let* s := get in
  let* (_, forward_var) := forward_loop (enumerate (layers s)) X None in
  let* loss_f := loss_dispatch loss_function forward_var Y in
  let* (loss_f, error) := call_loss_forward loss_f in
  let* (_, gradient) := call_loss_backward loss_f in
  append_loss error ;;
  let* s := get in
  backward_loop (rev (enumerate (layers s))) gradient learning_rate ;;
  ret error.

(** The loop of [train] over [range(epochs)]. *)
Fixpoint train_loop (epochs : list Z) (X_train Y_train learning_rate : Val)
    (loss_function : string) (verbose : bool) : M unit :=
  match epochs with
  | [] => ret tt
  | epoch :: epochs' =>
      let* loss := _run_epoch X_train Y_train learning_rate loss_function in
      (if verbose then
         if (epoch mod 50 =? 0)%Z then print epoch loss else ret tt
       else ret tt) ;;
      train_loop epochs' X_train Y_train learning_rate loss_function verbose
  end.

(** [train] *)
Definition train (X_train Y_train learning_rate : Val) (epochs : Z)
    (loss_function : string) (verbose : bool) : M unit :=
  train_loop (range epochs) X_train Y_train learning_rate loss_function
    verbose.

End Methods.

(** Resolves the next [self.layers[i]] of the goal with the lookup fact
    [Hi : layers _ !! i = Some a]. *)
Ltac subscript Hi :=
  match type of Hi with
  | _ = Some ?a =>
      match goal with
      | |- context [bind (layer_at ?i) ?f ?st] =>
          replace (bind (layer_at i) f st) with (f a st)
            by (unfold bind, layer_at; cbn [layers]; rewrite Hi; reflexivity);
          cbv beta
      end
  end.

(** * What the specification says, in its own terms *)

Section Specification.
Context {Val obj lossobj : Type}.
Context `{!Layer Val obj, !Loss Val lossobj, !Iterable Val}.
Local Open Scope model_scope.

Abbreviation M := (@M Val obj).
Abbreviation state := (@state Val obj).
Abbreviation event := (@event Val).

(** The composition [Ln.forward(... L1.forward(X) ...)], given the layers
    from the outermost ([Ln]) to the innermost ([L1]): the argument of a call
    is evaluated before the call. *)
Fixpoint composition (outer_first : list addr) (X : Val) : M Val :=
  match outer_first with
  | [] => ret X
  | Ln :: inner =>
      let* x := composition inner X in
      call_forward Ln x
  end.

(** The supported loss selectors and the loss class each one names. *)
Definition selects (loss_function : string) (k : loss_kind) : Prop :=
  match k with
  | BinaryCrossEntropy => loss_function = "BinaryCrossEntropy"
  | MeanSquaredError => loss_function = "MeanSquaredError"
  end.

Definition supported (loss_function : string) : Prop :=
  loss_function = "BinaryCrossEntropy" \/ loss_function = "MeanSquaredError".

(** The contract of a parametric layer: the [backward] of an object whose
    [type] is ['Linear'] returns a triple. *)
Definition linear_contract : Prop :=
  forall (o : obj) (g : Val),
    type o = "Linear" ->
    exists g' dW dB, iter (backward o g).2 = Some [g'; dW; dB].

(** The events of a forward pass over [ls] started on [X] and ending with
    the output [out]: one [forward] call per layer, in the order of [ls],
    each one on the value the previous one returned. *)
Inductive forward_trace : list addr -> Val -> list event -> Val -> Prop :=
| forward_done X : forward_trace [] X [] X
| forward_step a ls X y evs out :
    forward_trace ls y evs out ->
    forward_trace (a :: ls) X (EForward a X y :: evs) out.

(** The events of a backward pass that visits [ls] in the order of the
    list, started on the gradient [g] with the learning rate [lr].  A layer
    whose type is not ['Linear'] gets one [backward] call and what it
    returned is the gradient of the next visit.  A ['Linear'] layer gets a
    [backward] call that returns a triple; its [optimize] is called with
    the last two items and [lr] before the next visit starts, and the first
    item is the gradient of the next visit. *)
Inductive backward_trace (lr : Val)
  : list addr -> Val -> list event -> Val -> Prop :=
| backward_done g : backward_trace lr [] g [] g
| backward_plain a t ls g r evs g_end :
    t <> "Linear" ->
    backward_trace lr ls r evs g_end ->
    backward_trace lr (a :: ls) g
      (EGetType a t :: EBackward a g r :: evs) g_end
| backward_parametric a ls g r g' dW dB evs g_end :
    iter r = Some [g'; dW; dB] ->
    backward_trace lr ls g' evs g_end ->
    backward_trace lr (a :: ls) g
      (EGetType a "Linear" :: EBackward a g r :: EOptimize a dW dB lr :: evs)
      g_end.

(** One visit of the backward pass, as the log shows it: the layer, the
    type tag that was read, the gradient passed to [backward], what
    [backward] returned, and the arguments of the [optimize] call if there
    was one. *)
Record visit : Type := Visit {
  visit_layer : addr;
  visit_type : string;
  visit_gradient : Val;
  visit_result : Val;
  visit_update : option (Val * Val)
}.

Definition visit_events (lr : Val) (v : visit) : list event :=
  EGetType (visit_layer v) (visit_type v)
  :: EBackward (visit_layer v) (visit_gradient v) (visit_result v)
  :: match visit_update v with
     | Some (dW, dB) => [EOptimize (visit_layer v) dW dB lr]
     | None => []
     end.

(** The lines printed, the values returned by [loss.forward()], and the
    events that are not [forward] calls, in a log. *)
Definition printed (evs : list event) : list (Z * Val) :=
  flat_map (fun e => match e with EPrint n l => [(n, l)] | _ => [] end) evs.

Definition loss_values (evs : list event) : list Val :=
  flat_map (fun e => match e with ELossForward l => [l] | _ => [] end) evs.

Definition is_forward (e : event) : bool :=
  match e with EForward _ _ _ => true | _ => false end.

(** The events of one successful epoch on the layers [ls] with the loss
    class [k], and the error it returns: a forward pass, the construction
    of the loss unit from the output and the targets, its [forward] and
    [backward], and a backward pass over the layers in reverse. *)
Definition epoch_trace (ls : list addr) (X Y lr : Val) (k : loss_kind)
    (evs : list event) (error : Val) : Prop :=
  exists fev out bev g_end,
    let unit0 := loss_new k out Y in
    let unit1 := (loss_forward unit0).1 in
    let gradient := (loss_backward unit1).2 in
    evs = fev ++ ELossNew k out Y :: ELossForward error
              :: ELossBackward gradient :: bev /\
    forward_trace ls X fev out /\
    error = (loss_forward unit0).2 /\
    backward_trace lr (rev ls) gradient bev g_end.

(** The events of the epochs of one [train] call and the errors they
    return; a verbose call prints after the epochs divisible by 50. *)
Inductive train_trace (ls : list addr) (X Y lr : Val) (k : loss_kind)
    (verbose : bool) : list Z -> list event -> list Val -> Prop :=
| train_done : train_trace ls X Y lr k verbose [] [] []
| train_epoch epoch epochs evs error rest errors :
    epoch_trace ls X Y lr k evs error ->
    train_trace ls X Y lr k verbose epochs rest errors ->
    train_trace ls X Y lr k verbose (epoch :: epochs)
      (evs ++ (if verbose && (epoch mod 50 =? 0)%Z
               then [EPrint epoch error] else []) ++ rest)
      (error :: errors).

(** The reading of "an unsupported selector makes [train] fail before any
    epoch computes anything": the call raises and leaves the state, log of
    calls included, as it found it. *)
Definition fails_fast (X Y lr : Val) (epochs : Z) (loss_function : string)
    (verbose : bool) (s : state) : Prop :=
  train X Y lr epochs loss_function verbose s =
    (Raise (ValueError (loss_function ++ " is not supported.")), s).

(** Two states agree on the model with the layer sequence [L] when both hold
    that sequence and the same object behind each of its references; they may
    differ in [self.loss], in the log and in objects the model does not
    hold. *)
Definition agree (L : list addr) (s1 s2 : state) : Prop :=
  layers s1 = L /\ layers s2 = L /\
  forall a, a ∈ L -> heap s1 a = heap s2 a.

(** Two runs, started in [s1] and in [s2], have the same outcome: the same
    result (value or exception), states that agree again, the same new
    events and the same new entries of [self.loss]. *)
Definition same_outcome {A : Type} (L : list addr) (s1 s2 : state)
    (r1 r2 : result A * state) : Prop :=
  r1.1 = r2.1 /\
  agree L r1.2 r2.2 /\
  exists evs errors,
    log r1.2 = log s1 ++ evs /\ log r2.2 = log s2 ++ evs /\
    loss r1.2 = loss s1 ++ errors /\ loss r2.2 = loss s2 ++ errors.

(** A computation is deterministic on the model [L] when its runs from any
    two states that agree on [L] have the same outcome. *)
Definition deterministic {A : Type} (L : list addr) (m : M A) : Prop :=
  forall s1 s2, agree L s1 s2 -> same_outcome L s1 s2 (m s1) (m s2).

(** A caller that adds the layers of a list, first to last:
    [model.add(L1); ...; model.add(Ln)], as in the example of the class
    docstring. *)
Fixpoint add_all (new_layers : list addr) : M unit :=
  match new_layers with
  | [] => ret tt
  | layer :: rest => add layer ;; add_all rest
  end.

(** The value unpacks into exactly three items. *)
Definition is_triple (r : Val) : Prop :=
  exists g dW dB, iter r = Some [g; dW; dB].

(** The calls of a log: everything but the printed lines. *)
Definition calls (evs : list event) : list event :=
  List.filter (fun e => match e with EPrint _ _ => false | _ => true end) evs.

(** The fifth argument of the [train] call in the example of the class
    docstring, as it is written there. *)
Definition docstring_selector : string := "BinaryCrossEntropy, verbose=True".

(** A backward pass over [ls], in the order of the list, on the heap [h]
    with the gradient [g] and the learning rate [lr]: its events, the heap
    it leaves and the gradient it ends with.  What a visit does is decided
    by the [type] of the object as it is when the visit starts.  When the
    type is not ['Linear'], [backward(g)] is called, the object is as that
    call left it, and what the call returned is the gradient of the next
    visit.  When the type is ['Linear'], [backward(g)] returns a triple
    [(g', dW, dB)], then [optimize(dW, dB, lr)] is applied to the object as
    [backward] left it, and [g'] is the gradient of the next visit. *)
Inductive backward_pass (lr : Val)
  : (addr -> obj) -> list addr -> Val -> list event ->
    (addr -> obj) -> Val -> Prop :=
| pass_done h g : backward_pass lr h [] g [] h g
| pass_plain h a ls g evs h_end g_end :
    type (h a) <> "Linear" ->
    backward_pass lr (<[a:=(backward (h a) g).1]> h) ls
      (backward (h a) g).2 evs h_end g_end ->
    backward_pass lr h (a :: ls) g
      (EGetType a (type (h a)) :: EBackward a g (backward (h a) g).2 :: evs)
      h_end g_end
| pass_parametric h a ls g g' dW dB evs h_end g_end :
    type (h a) = "Linear" ->
    iter (backward (h a) g).2 = Some [g'; dW; dB] ->
    backward_pass lr
      (<[a:=optimize (backward (h a) g).1 dW dB lr]>
         (<[a:=(backward (h a) g).1]> h))
      ls g' evs h_end g_end ->
    backward_pass lr h (a :: ls) g
      (EGetType a "Linear" :: EBackward a g (backward (h a) g).2
         :: EOptimize a dW dB lr :: evs)
      h_end g_end.

End Specification.

(** * Mock layers and losses on integers, for the examples *)

Module Mock.

(** A number, or a tuple of numbers. *)
Inductive value : Type :=
| Num (z : Z)
| Tuple (items : list Z).

Definition num (v : value) : Z :=
  match v with Num z => z | Tuple _ => 0%Z end.

(** A layer with a scalar weight and bias that remembers its last input. *)
Record layer : Type := MkLayer {
  tag : string;
  weight : Z;
  bias : Z;
  cache : Z
}.

#[global] Instance value_iterable : Iterable value := {|
  iter v :=
    match v with Tuple items => Some (map Num items) | Num _ => None end
|}.

(** ['Linear'] computes [w * x + b]; every other tag is a rectifier. *)
#[global] Instance layer_methods : Layer value layer := {|
  type := tag;
  forward o x :=
    (MkLayer (tag o) (weight o) (bias o) (num x),
     if String.eqb (tag o) "Linear"
     then Num (weight o * num x + bias o)
     else Num (Z.max 0 (num x)));
  backward o g :=
    (o,
     if String.eqb (tag o) "Linear"
     then Tuple [num g * weight o; num g * cache o; num g]%Z
     else Num (if (0 <? cache o)%Z then num g else 0));
  optimize o dW dB lr :=
    MkLayer (tag o) (weight o - num lr * num dW)
      (bias o - num lr * num dB) (cache o)
|}.

(** A loss unit keeps its class, the prediction and the target. *)
#[global] Instance loss_methods : Loss value (loss_kind * Z * Z) := {|
  loss_new k predicted target := (k, num predicted, num target);
  loss_forward l :=
    let '(k, p, y) := l in
    (l, match k with
        | MeanSquaredError => Num ((p - y) * (p - y))
        | BinaryCrossEntropy => Num (Z.abs (p - y))
        end);
  loss_backward l :=
    let '(k, p, y) := l in
    (l, match k with
        | MeanSquaredError => Num (2 * (p - y))
        | BinaryCrossEntropy => Num (Z.sgn (p - y))
        end)
|}.

(** Three objects: a ['Linear'] layer at 0, a ['ReLU'] at 1, a ['Linear']
    at 2. *)
Definition objects (a : addr) : layer :=
  match a with
  | 0 => MkLayer "Linear" 2 1 0
  | 1 => MkLayer "ReLU" 0 0 0
  | _ => MkLayer "Linear" 3 0 0
  end.

Definition empty_model : @state value layer := init objects.

Definition build (ls : list addr) : @state value layer :=
  fold_left (fun s a => (add a s).2) ls empty_model.

(** [Linear, ReLU, Linear], and a single [Linear]. *)
Definition three_layers : @state value layer := build [0; 1; 2].
Definition one_layer : @state value layer := build [0].

(** [three_layers] after earlier training: another loss history and another
    log, the same layers and objects. *)
Definition three_layers_later : @state value layer :=
  State (layers three_layers) [Num 7] (heap three_layers) [EPrint 0 (Num 7)].

End Mock.

(** * A mock layer that breaks the contract of ['Linear'] *)

Module Broken.

(** A layer that announces the type ['Linear'] and whose [backward] returns
    a pair; [hits] counts the calls of [optimize]. *)
Record layer : Type := MkLayer {
  seen : Z;
  hits : Z
}.

Definition layer_methods : Layer Mock.value layer := {|
  type _ := "Linear";
  forward o x := (MkLayer (Mock.num x) (hits o), x);
  backward o g := (o, Mock.Tuple [Mock.num g; seen o]);
  optimize o dW dB lr := MkLayer (seen o) (hits o + 1)
|}.

Definition one_layer : @state Mock.value layer :=
  State [0] [] (fun _ => MkLayer 0 0) [].

End Broken.

(** * Properties *)

Section Properties.
Context {Val obj lossobj : Type}.
Context `{!Layer Val obj, !Loss Val lossobj, !Iterable Val}.
Local Open Scope model_scope.

Abbreviation M := (@M Val obj).
Abbreviation state := (@state Val obj).
Abbreviation event := (@event Val).

Implicit Types (s : state) (X Y g lr : Val) (a : addr) (ls : list addr).

(** ** Running the monad *)

Lemma bind_ok {A B : Type} (m : M A) (f : A -> M B) s v s1 :
  m s = (Ok v, s1) -> bind m f s = f v s1.
Proof. unfold bind. intros ->. reflexivity. Qed.

Lemma bind_raise {A B : Type} (m : M A) (f : A -> M B) s e s1 :
  m s = (Raise e, s1) -> bind m f s = (Raise e, s1).
Proof. unfold bind. intros ->. reflexivity. Qed.

Lemma bind_assoc {A B C : Type} (m : M A) (f : A -> M B) (k : B -> M C) s :
  bind (bind m f) k s = bind m (fun x => bind (f x) k) s.
Proof. unfold bind. destruct (m s) as [[v|e] s1]; reflexivity. Qed.

Lemma bind_ext {A B : Type} (m : M A) (f f' : A -> M B) s :
  (forall v s1, f v s1 = f' v s1) -> bind m f s = bind m f' s.
Proof.
  intros Hf. unfold bind. destruct (m s) as [[v|e] s1]; [apply Hf|reflexivity].
Qed.

Lemma layer_at_middle pre a ls s :
  layers s = pre ++ a :: ls -> layer_at (length pre) s = (Ok a, s).
Proof.
  intros Hl. unfold layer_at.
  rewrite Hl, list_lookup_middle by reflexivity. reflexivity.
Qed.

Lemma call_forward_run a X s :
  call_forward a X s =
    (Ok (forward (heap s a) X).2,
     State (layers s) (loss s) (<[a:=(forward (heap s a) X).1]> (heap s))
       (log s ++ [EForward a X (forward (heap s a) X).2])).
Proof.
  unfold call_forward, bind, get. destruct (forward (heap s a) X). reflexivity.
Qed.

Lemma call_backward_run a g s :
  call_backward a g s =
    (Ok (backward (heap s a) g).2,
     State (layers s) (loss s) (<[a:=(backward (heap s a) g).1]> (heap s))
       (log s ++ [EBackward a g (backward (heap s a) g).2])).
Proof.
  unfold call_backward, bind, get. destruct (backward (heap s a) g).
  reflexivity.
Qed.

Lemma call_optimize_run a dW dB lr s :
  call_optimize a dW dB lr s =
    (Ok tt,
     State (layers s) (loss s) (<[a:=optimize (heap s a) dW dB lr]> (heap s))
       (log s ++ [EOptimize a dW dB lr])).
Proof. reflexivity. Qed.

Lemma get_type_run a s :
  get_type a s =
    (Ok (type (heap s a)),
     State (layers s) (loss s) (heap s) (log s ++ [EGetType a (type (heap s a))])).
Proof. reflexivity. Qed.

Lemma call_loss_forward_run (l l' : lossobj) error s :
  loss_forward l = (l', error) ->
  call_loss_forward l s =
    (Ok (l', error),
     State (layers s) (loss s) (heap s) (log s ++ [ELossForward error])).
Proof. unfold call_loss_forward. intros ->. reflexivity. Qed.

Lemma call_loss_backward_run (l l' : lossobj) gradient s :
  loss_backward l = (l', gradient) ->
  call_loss_backward l s =
    (Ok (l', gradient),
     State (layers s) (loss s) (heap s) (log s ++ [ELossBackward gradient])).
Proof. unfold call_loss_backward. intros ->. reflexivity. Qed.

Lemma append_loss_run error s :
  append_loss error s =
    (Ok tt, State (layers s) (loss s ++ [error]) (heap s) (log s)).
Proof. reflexivity. Qed.

Lemma layer_at_lookup i a s :
  layers s !! i = Some a -> layer_at i s = (Ok a, s).
Proof. unfold layer_at. intros ->. reflexivity. Qed.

(** ** The forward loop *)

Lemma forward_trace_app ls1 ls2 X mid out evs1 evs2 :
  forward_trace ls1 X evs1 mid ->
  forward_trace ls2 mid evs2 out ->
  forward_trace (ls1 ++ ls2) X (evs1 ++ evs2) out.
Proof.
  induction 1 as [|a ls X y evs mid' _ IH]; intros H2; simpl.
  - exact H2.
  - constructor. apply IH, H2.
Qed.

(** On the indices of a suffix of [self.layers] the loop runs to its end:
    it calls [forward] once per layer, in order, and binds [forward]. *)
Lemma forward_loop_run ls : forall pre X fv s,
  layers s = pre ++ ls ->
  exists out fev s',
    forward_loop (enumerate_from (length pre) ls) X fv s =
      (Ok (out, match ls with [] => fv | _ => Some out end), s') /\
    layers s' = layers s /\ loss s' = loss s /\
    log s' = log s ++ fev /\
    forward_trace ls X fev out.
Proof.
  induction ls as [|a ls IH]; intros pre X fv s Hl; simpl.
  - exists X, [], s. rewrite app_nil_r. repeat split. constructor.
  - rewrite (bind_ok _ _ _ _ _ (layer_at_middle _ _ _ _ Hl)).
    rewrite (bind_ok _ _ _ _ _ (call_forward_run _ _ _)).
    set (y := (forward (heap s a) X).2).
    set (s1 := State _ _ _ _).
    destruct (IH (pre ++ [a]) y (Some y) s1) as (out & fev & s' & Hrun & Hls & Hloss & Hlog & Htr).
    { simpl. rewrite Hl, <- app_assoc. reflexivity. }
    rewrite length_app, Nat.add_1_r in Hrun.
    exists out, (EForward a X y :: fev), s'. split; [|repeat split].
    + rewrite Hrun. destruct ls; [|reflexivity].
      inversion Htr; subst. reflexivity.
    + exact Hls.
    + exact Hloss.
    + rewrite Hlog. simpl. rewrite <- app_assoc. reflexivity.
    + constructor. exact Htr.
Qed.

(** Whatever the loop does, it changes layer objects through [forward]
    alone: what [forward] preserves is preserved. *)
Lemma forward_loop_preserves {P : Type} (f : obj -> P) :
  (forall o x, f (forward o x).1 = f o) ->
  forall idx X fv s r s',
    forward_loop idx X fv s = (r, s') ->
    forall a, f (heap s' a) = f (heap s a).
Proof.
  intros Hf. induction idx as [|[i b] idx IH]; intros X fv s r s' Hrun a; simpl in Hrun.
  - inversion Hrun; subst. reflexivity.
  - unfold bind at 1 in Hrun. unfold layer_at in Hrun.
    destruct (layers s !! i) as [c|]; [|inversion Hrun; subst; reflexivity].
    rewrite (bind_ok _ _ _ _ _ (call_forward_run _ _ _)) in Hrun.
    rewrite (IH _ _ _ _ _ Hrun a). simpl.
    destruct (decide (c = a)) as [->|Hne].
    + rewrite fn_lookup_insert. apply Hf.
    + rewrite fn_lookup_insert_ne by exact Hne. reflexivity.
Qed.

(** ** [predict] *)

Lemma composition_snoc outer a : forall X s,
  composition (outer ++ [a]) X s =
    bind (call_forward a X) (fun y => composition outer y) s.
Proof.
  induction outer as [|b outer IH]; intros X s; simpl.
  - unfold bind, ret. destruct (call_forward a X s) as [[y|e] s1]; reflexivity.
  - unfold bind at 1. rewrite IH. unfold bind.
    destruct (call_forward a X s) as [[y|e] s1]; reflexivity.
Qed.

Lemma forward_loop_composition ls : forall pre X fv s,
  layers s = pre ++ ls ->
  exists out s',
    composition (rev ls) X s = (Ok out, s') /\
    forward_loop (enumerate_from (length pre) ls) X fv s =
      (Ok (out, match ls with [] => fv | _ => Some out end), s').
Proof.
  induction ls as [|a ls IH]; intros pre X fv s Hl; simpl.
  - exists X, s. split; reflexivity.
  - rewrite composition_snoc.
    rewrite (bind_ok _ _ _ _ _ (layer_at_middle _ _ _ _ Hl)).
    rewrite !(bind_ok _ _ _ _ _ (call_forward_run _ _ _)).
    set (y := (forward (heap s a) X).2).
    set (s1 := State _ _ _ _).
    destruct (IH (pre ++ [a]) y (Some y) s1) as (out & s' & Hc & Hrun).
    { simpl. rewrite Hl, <- app_assoc. reflexivity. }
    rewrite length_app, Nat.add_1_r in Hrun.
    exists out, s'. split; [exact Hc|].
    rewrite Hrun. destruct ls; [|reflexivity].
    simpl in Hc. inversion Hc; subst. reflexivity.
Qed.

Lemma predict_unfold X s :
  predict X s =
    bind (forward_loop (enumerate (layers s)) X None)
      (fun r => read_local "forward" r.2) s.
Proof.
  unfold predict, bind, get.
  destruct (forward_loop _ _ _ _) as [[[x fv]|e] s1]; reflexivity.
Qed.

(** C2. For a model whose layer sequence [L1..Ln] is not empty,
    [predict(X)] is the composition [Ln.forward(...(L1.forward(X))...)]:
    the same value, the same calls in the same order and the same effect on
    the layer objects. *)
Theorem predict_is_composition s X :
  layers s <> [] ->
  predict X s = composition (rev (layers s)) X s.
Proof.
  intros Hne. rewrite predict_unfold.
  destruct (forward_loop_composition (layers s) [] X None s eq_refl)
    as (out & s' & Hc & Hrun).
  unfold enumerate. simpl in Hrun.
  rewrite (bind_ok _ _ _ _ _ Hrun), Hc.
  destruct (layers s); [contradiction|reflexivity].
Qed.

(** C8. On a model without layers [predict(X)] fails for every [X]: the
    loop body never runs, [forward] is still unbound at the [return], and
    nothing has been called or changed.  On a model with at least one layer
    [predict] returns a value, so that failure cannot occur there. *)
Theorem predict_empty_model s X :
  (layers s = [] ->
   predict X s = (Raise (UnboundLocalError "forward"), s)) /\
  (layers s <> [] ->
   exists out s', predict X s = (Ok out, s')).
Proof.
  split.
  - intros Hnil. rewrite predict_unfold, Hnil. reflexivity.
  - intros Hne. rewrite predict_unfold.
    destruct (forward_loop_composition (layers s) [] X None s eq_refl)
      as (out & s' & _ & Hrun).
    unfold enumerate. simpl in Hrun. rewrite (bind_ok _ _ _ _ _ Hrun).
    exists out, s'. destruct (layers s); [contradiction|reflexivity].
Qed.

(** ** The backward loop *)

(** One iteration on a layer whose type is not ['Linear']: a single
    [backward] call whose result, whatever it is, is the new gradient. *)
Lemma backward_body_plain i a g lr s :
  layers s !! i = Some a ->
  type (heap s a) <> "Linear" ->
  backward_body i g lr s =
    (Ok (backward (heap s a) g).2,
     State (layers s) (loss s) (<[a:=(backward (heap s a) g).1]> (heap s))
       (log s ++ [EGetType a (type (heap s a));
                  EBackward a g (backward (heap s a) g).2])).
Proof.
  intros Hi Hty. unfold backward_body.
  subscript Hi.
  rewrite (bind_ok _ _ _ _ _ (get_type_run _ _)).
  apply String.eqb_neq in Hty. rewrite Hty. cbn [negb].
  subscript Hi.
  rewrite call_backward_run. simpl. rewrite <- app_assoc. reflexivity.
Qed.

(** One iteration on a ['Linear'] layer whose [backward] returns a triple:
    the [backward] call, then [optimize] on the object as [backward] left
    it. *)
Lemma backward_body_linear i a g lr s g' dW dB :
  layers s !! i = Some a ->
  type (heap s a) = "Linear" ->
  iter (backward (heap s a) g).2 = Some [g'; dW; dB] ->
  backward_body i g lr s =
    (Ok g',
     State (layers s) (loss s)
       (<[a:=optimize (backward (heap s a) g).1 dW dB lr]>
          (<[a:=(backward (heap s a) g).1]> (heap s)))
       (log s ++ [EGetType a "Linear";
                  EBackward a g (backward (heap s a) g).2;
                  EOptimize a dW dB lr])).
Proof.
  intros Hi Hty Hit. unfold backward_body.
  subscript Hi.
  rewrite (bind_ok _ _ _ _ _ (get_type_run _ _)).
  rewrite Hty, String.eqb_refl. cbn [negb].
  subscript Hi.
  rewrite (bind_ok _ _ _ _ _ (call_backward_run _ _ _)).
  simpl heap. unfold unpack3. rewrite Hit.
  unfold bind at 1. unfold ret at 1.
  subscript Hi.
  rewrite (bind_ok _ _ _ _ _ (call_optimize_run _ _ _ _ _)).
  unfold ret. simpl. rewrite fn_lookup_insert, <- !app_assoc. reflexivity.
Qed.

Lemma backward_loop_app lr idx1 : forall idx2 g s,
  backward_loop (idx1 ++ idx2) g lr s =
    bind (backward_loop idx1 g lr) (fun g' => backward_loop idx2 g' lr) s.
Proof.
  induction idx1 as [|[i b] idx1 IH]; intros idx2 g s; simpl.
  - reflexivity.
  - rewrite bind_assoc.
    destruct (backward_body i g lr s) as [[g1|e] s1] eqn:Hbody.
    + rewrite !(bind_ok _ _ _ _ _ Hbody). apply IH.
    + rewrite !(bind_raise _ _ _ _ _ Hbody). reflexivity.
Qed.

Lemma backward_trace_app lr ls1 ls2 g mid g_end evs1 evs2 :
  backward_trace lr ls1 g evs1 mid ->
  backward_trace lr ls2 mid evs2 g_end ->
  backward_trace lr (ls1 ++ ls2) g (evs1 ++ evs2) g_end.
Proof.
  induction 1 as [g|a t ls g r evs mid' Ht _ IH
                 |a ls g r g' dW dB evs mid' Hit _ IH]; intros H2; simpl.
  - exact H2.
  - apply backward_plain; [exact Ht|apply IH, H2].
  - eapply backward_parametric; [exact Hit|apply IH, H2].
Qed.

(** When ['Linear'] layers keep their contract, the loop over the reversed
    indices of a suffix of [self.layers] runs to its end and its events are
    a backward pass over those layers in reverse. *)
Lemma backward_loop_run lr (Hc : linear_contract) ls : forall pre g s,
  layers s = pre ++ ls ->
  exists g_end bev s',
    backward_loop (rev (enumerate_from (length pre) ls)) g lr s =
      (Ok g_end, s') /\
    layers s' = layers s /\ loss s' = loss s /\
    log s' = log s ++ bev /\
    backward_trace lr (rev ls) g bev g_end.
Proof.
  induction ls as [|a ls IH]; intros pre g s Hl; simpl.
  - exists g, [], s. rewrite app_nil_r. repeat split. constructor.
  - destruct (IH (pre ++ [a]) g s) as (g1 & bev & s1 & Hrun & Hls & Hloss & Hlog & Htr).
    { rewrite Hl, <- app_assoc. reflexivity. }
    rewrite length_app, Nat.add_1_r in Hrun.
    rewrite backward_loop_app, (bind_ok _ _ _ _ _ Hrun). simpl.
    assert (Hi : layers s1 !! length pre = Some a).
    { rewrite Hls, Hl. apply list_lookup_middle. reflexivity. }
    destruct (String.eqb_spec (type (heap s1 a)) "Linear") as [Hty|Hty].
    + destruct (Hc (heap s1 a) g1 Hty) as (g' & dW & dB & Hit).
      rewrite (bind_ok _ _ _ _ _ (backward_body_linear _ _ _ lr _ _ _ _ Hi Hty Hit)).
      eexists g', _, _. split; [reflexivity|]. simpl.
      split; [exact Hls|]. split; [exact Hloss|]. split.
      * rewrite Hlog, <- app_assoc. reflexivity.
      * eapply backward_trace_app; [exact Htr|].
        eapply backward_parametric; [exact Hit|constructor].
    + rewrite (bind_ok _ _ _ _ _ (backward_body_plain _ _ _ lr _ Hi Hty)).
      eexists _, _, _. split; [reflexivity|]. simpl.
      split; [exact Hls|]. split; [exact Hloss|]. split.
      * rewrite Hlog, <- app_assoc. reflexivity.
      * eapply backward_trace_app; [exact Htr|].
        apply backward_plain; [exact Hty|constructor].
Qed.

(** ** The epoch routine *)

Lemma selects_supported lf k : selects lf k -> supported lf.
Proof. destruct k; simpl; intros ->; [left|right]; reflexivity. Qed.

Lemma supported_selects lf : supported lf -> exists k, selects lf k.
Proof.
  intros [->| ->];
    [exists BinaryCrossEntropy|exists MeanSquaredError]; reflexivity.
Qed.

Lemma loss_dispatch_selects lf k out Y s :
  selects lf k ->
  loss_dispatch lf (Some out) Y s =
    (Ok (loss_new k out Y),
     State (layers s) (loss s) (heap s) (log s ++ [ELossNew k out Y])).
Proof. destruct k; simpl; intros ->; reflexivity. Qed.

Lemma loss_dispatch_unsupported lf fv Y s :
  ~ supported lf ->
  loss_dispatch lf fv Y s =
    (Raise (ValueError (lf ++ " is not supported.")), s).
Proof.
  intros Hns. unfold loss_dispatch.
  destruct (String.eqb_spec lf "BinaryCrossEntropy") as [->|_].
  { exfalso. apply Hns. left. reflexivity. }
  destruct (String.eqb_spec lf "MeanSquaredError") as [->|_].
  { exfalso. apply Hns. right. reflexivity. }
  reflexivity.
Qed.

Lemma run_epoch_unfold X Y lr lf s :
  _run_epoch X Y lr lf s =
    bind (forward_loop (enumerate (layers s)) X None)
      (fun r =>
         let* loss_f := loss_dispatch lf r.2 Y in
         let* (loss_f, error) := call_loss_forward loss_f in
         let* (_, gradient) := call_loss_backward loss_f in
         append_loss error ;;
         let* s := get in
         backward_loop (rev (enumerate (layers s))) gradient lr ;;
         ret error) s.
Proof.
  unfold _run_epoch. rewrite (bind_ok get _ s s s eq_refl).
  apply bind_ext. intros [x fv] s1. reflexivity.
Qed.

(** An epoch on a non-empty model with a supported selector and layers
    that keep the contract: it returns the error, appends it to
    [self.loss], and its events are those of [epoch_trace], the forward
    output being what [predict] returns from the same state. *)
Lemma run_epoch_ok X Y lr lf k s :
  linear_contract -> layers s <> [] -> selects lf k ->
  exists error evs s',
    _run_epoch X Y lr lf s = (Ok error, s') /\
    layers s' = layers s /\
    loss s' = loss s ++ [error] /\
    log s' = log s ++ evs /\
    epoch_trace (layers s) X Y lr k evs error /\
    exists out, (predict X s).1 = Ok out /\
                error = (loss_forward (loss_new k out Y)).2.
Proof.
  intros Hc Hne Hsel.
  destruct (forward_loop_run (layers s) [] X None s eq_refl)
    as (out & fev & s1 & Hfwd & Hls1 & Hloss1 & Hlog1 & Hftr).
  change (enumerate_from (length []) (layers s))
    with (enumerate (layers s)) in Hfwd.
  assert (Hfv : match layers s with [] => None | _ => Some out end = Some out)
    by (destruct (layers s); [contradiction|reflexivity]).
  rewrite Hfv in Hfwd. clear Hfv.
  rewrite run_epoch_unfold, (bind_ok _ _ _ _ _ Hfwd). cbn [snd].
  rewrite (bind_ok _ _ _ _ _ (loss_dispatch_selects _ _ _ _ _ Hsel)).
  destruct (loss_forward (loss_new k out Y)) as [unit1 error] eqn:Hlf.
  destruct (loss_backward unit1) as [unit2 gradient] eqn:Hlb.
  rewrite (bind_ok _ _ _ _ _ (call_loss_forward_run _ _ _ _ Hlf)).
  rewrite (bind_ok _ _ _ _ _ (call_loss_backward_run _ _ _ _ Hlb)).
  rewrite (bind_ok _ _ _ _ _ (append_loss_run _ _)).
  rewrite (bind_ok get _ _ _ _ eq_refl).
  cbn [layers loss heap log].
  match goal with
  | |- context [bind (backward_loop _ _ _) _ ?st] =>
      destruct (backward_loop_run lr Hc (layers s1) [] gradient st eq_refl)
        as (g_end & bev & s' & Hbwd & Hls' & Hloss' & Hlog' & Hbtr)
  end.
  change (enumerate_from (length []) (layers s1))
    with (enumerate (layers s1)) in Hbwd.
  rewrite (bind_ok _ _ _ _ _ Hbwd). unfold ret.
  cbn [layers loss heap log] in Hls', Hloss', Hlog'.
  exists error,
    (fev ++ ELossNew k out Y :: ELossForward error
         :: ELossBackward gradient :: bev), s'.
  split; [reflexivity|].
  split; [congruence|].
  split; [congruence|].
  split; [rewrite Hlog', Hlog1, <- !app_assoc; reflexivity|].
  split.
  - exists fev, out, bev, g_end. cbn zeta. rewrite Hlf. cbn [fst snd].
    rewrite Hlb. cbn [snd]. rewrite Hls1 in Hbtr. repeat split; assumption.
  - exists out. rewrite predict_unfold, (bind_ok _ _ _ _ _ Hfwd), Hlf.
    split; reflexivity.
Qed.

(** ** [train] *)

(** The reporting step of [train] after an epoch. *)
Lemma report_run (verbose : bool) (epoch : Z) error s :
  (if verbose then
     if (epoch mod 50 =? 0)%Z then print epoch error else ret tt
   else ret tt) s =
    (Ok tt,
     State (layers s) (loss s) (heap s)
       (log s ++ (if verbose && (epoch mod 50 =? 0)%Z
                  then [EPrint epoch error] else []))).
Proof.
  destruct s as [ls lo h lg].
  destruct verbose; [destruct (epoch mod 50 =? 0)%Z|]; simpl;
    rewrite ?app_nil_r; reflexivity.
Qed.

(** With a non-empty model, a supported selector and layers that keep the
    contract, the loop of [train] completes every epoch. *)
Lemma train_loop_ok X Y lr lf k verbose :
  linear_contract -> selects lf k ->
  forall epochs s,
    layers s <> [] ->
    exists evs errors s',
      train_loop epochs X Y lr lf verbose s = (Ok tt, s') /\
      layers s' = layers s /\
      loss s' = loss s ++ errors /\
      log s' = log s ++ evs /\
      train_trace (layers s) X Y lr k verbose epochs evs errors.
Proof.
  intros Hc Hsel. induction epochs as [|epoch epochs IH]; intros s Hne; simpl.
  - exists [], [], s. rewrite !app_nil_r. repeat split. constructor.
  - destruct (run_epoch_ok X Y lr lf k s Hc Hne Hsel)
      as (error & evs & s1 & Hrun & Hls1 & Hloss1 & Hlog1 & Htr & _).
    rewrite (bind_ok _ _ _ _ _ Hrun).
    rewrite (bind_ok _ _ _ _ _ (report_run _ _ _ _)).
    set (s2 := State _ _ _ _).
    destruct (IH s2) as (rest & errors & s' & Hloop & Hls' & Hloss' & Hlog' & Htr').
    { simpl. rewrite Hls1. exact Hne. }
    simpl in Hls', Hloss', Hlog', Htr'. rewrite Hls1 in Htr'.
    eexists _, (error :: errors), s'. split; [exact Hloop|].
    split; [congruence|].
    split; [rewrite Hloss', Hloss1, <- app_assoc; reflexivity|].
    split; [|apply train_epoch; eassumption].
    rewrite Hlog', Hlog1, <- !app_assoc. reflexivity.
Qed.

Lemma train_trace_length ls X Y lr k verbose epochs evs errors :
  train_trace ls X Y lr k verbose epochs evs errors ->
  length errors = length epochs.
Proof. induction 1; simpl; congruence. Qed.

Lemma length_range n : length (range n) = Z.to_nat n.
Proof. unfold range. rewrite length_map, length_seq. reflexivity. Qed.

(** *** What a log of [train] shows *)

Lemma printed_app (evs1 evs2 : list event) :
  printed (evs1 ++ evs2) = printed evs1 ++ printed evs2.
Proof. apply flat_map_app. Qed.

Lemma loss_values_app (evs1 evs2 : list event) :
  loss_values (evs1 ++ evs2) = loss_values evs1 ++ loss_values evs2.
Proof. apply flat_map_app. Qed.

Lemma forward_trace_quiet ls X evs out :
  forward_trace ls X evs out -> printed evs = [] /\ loss_values evs = [].
Proof. induction 1; simpl; [split; reflexivity|assumption]. Qed.

Lemma backward_trace_quiet lr ls g evs g_end :
  backward_trace lr ls g evs g_end ->
  printed evs = [] /\ loss_values evs = [].
Proof. induction 1; simpl; [split; reflexivity|assumption..]. Qed.

Lemma epoch_trace_shows ls X Y lr k evs error :
  epoch_trace ls X Y lr k evs error ->
  printed evs = [] /\ loss_values evs = [error].
Proof.
  intros (fev & out & bev & g_end & -> & Hf & _ & Hb).
  apply forward_trace_quiet in Hf as [Hf1 Hf2].
  apply backward_trace_quiet in Hb as [Hb1 Hb2].
  rewrite printed_app, loss_values_app, Hf1, Hf2. simpl.
  rewrite Hb1, Hb2. split; reflexivity.
Qed.

Lemma train_trace_shows ls X Y lr k verbose epochs evs errors :
  train_trace ls X Y lr k verbose epochs evs errors ->
  loss_values evs = errors /\
  printed evs =
    if verbose
    then List.filter (fun p => (p.1 mod 50 =? 0)%Z) (combine epochs errors)
    else [].
Proof.
  induction 1 as [|epoch epochs evs error rest errors He _ [IH1 IH2]].
  - destruct verbose; split; reflexivity.
  - apply epoch_trace_shows in He as [He1 He2].
    rewrite !printed_app, !loss_values_app, He1, He2, IH1, IH2.
    destruct verbose; simpl; [|split; reflexivity].
    destruct (epoch mod 50 =? 0)%Z; split; reflexivity.
Qed.

Lemma filter_combine_fst {A B : Type} (f : A -> bool) (l1 : list A) :
  forall l2 : list B,
    length l2 = length l1 ->
    map fst (List.filter (fun p => f p.1) (combine l1 l2)) = List.filter f l1.
Proof.
  induction l1 as [|x l1 IH]; intros [|y l2] Hlen; simpl in *;
    try discriminate; [reflexivity|].
  destruct (f x); simpl; rewrite IH by congruence; reflexivity.
Qed.

(** ** The backward pass on the heap *)

Lemma backward_pass_app lr h ls1 ls2 g evs1 evs2 h_mid g_mid h_end g_end :
  backward_pass lr h ls1 g evs1 h_mid g_mid ->
  backward_pass lr h_mid ls2 g_mid evs2 h_end g_end ->
  backward_pass lr h (ls1 ++ ls2) g (evs1 ++ evs2) h_end g_end.
Proof.
  induction 1 as [h g|h a ls g evs h_mid g_mid Hty _ IH
                 |h a ls g g' dW dB evs h_mid g_mid Hty Hit _ IH];
    intros H2; simpl.
  - exact H2.
  - apply pass_plain; [exact Hty|apply IH, H2].
  - eapply pass_parametric; [exact Hty|exact Hit|apply IH, H2].
Qed.

Lemma backward_pass_trace lr h ls g evs h_end g_end :
  backward_pass lr h ls g evs h_end g_end ->
  backward_trace lr ls g evs g_end.
Proof.
  induction 1 as [h g|h a ls g evs h_end g_end Hty _ IH
                 |h a ls g g' dW dB evs h_end g_end Hty Hit _ IH].
  - constructor.
  - apply backward_plain; assumption.
  - eapply backward_parametric; eassumption.
Qed.

(** When ['Linear'] layers keep their contract, the loop over the reversed
    indices of a suffix of [self.layers] is a backward pass on the heap over
    those layers in reverse. *)
Lemma backward_loop_pass lr (Hc : linear_contract) ls : forall pre g s,
  layers s = pre ++ ls ->
  exists g_end bev s',
    backward_loop (rev (enumerate_from (length pre) ls)) g lr s =
      (Ok g_end, s') /\
    layers s' = layers s /\ loss s' = loss s /\
    log s' = log s ++ bev /\
    backward_pass lr (heap s) (rev ls) g bev (heap s') g_end.
Proof.
  induction ls as [|a ls IH]; intros pre g s Hl; simpl.
  - exists g, [], s. rewrite app_nil_r. repeat split. constructor.
  - destruct (IH (pre ++ [a]) g s)
      as (g1 & bev & s1 & Hrun & Hls & Hloss & Hlog & Hpass).
    { rewrite Hl, <- app_assoc. reflexivity. }
    rewrite length_app, Nat.add_1_r in Hrun.
    rewrite backward_loop_app, (bind_ok _ _ _ _ _ Hrun). simpl.
    assert (Hi : layers s1 !! length pre = Some a).
    { rewrite Hls, Hl. apply list_lookup_middle. reflexivity. }
    destruct (String.eqb_spec (type (heap s1 a)) "Linear") as [Hty|Hty].
    + destruct (Hc (heap s1 a) g1 Hty) as (g' & dW & dB & Hit).
      rewrite (bind_ok _ _ _ _ _
                 (backward_body_linear _ _ _ lr _ _ _ _ Hi Hty Hit)).
      eexists g', _, _. split; [reflexivity|]. simpl.
      split; [exact Hls|]. split; [exact Hloss|]. split.
      * rewrite Hlog, <- app_assoc. reflexivity.
      * eapply backward_pass_app; [exact Hpass|].
        eapply pass_parametric; [exact Hty|exact Hit|constructor].
    + rewrite (bind_ok _ _ _ _ _ (backward_body_plain _ _ _ lr _ Hi Hty)).
      eexists _, _, _. split; [reflexivity|]. simpl.
      split; [exact Hls|]. split; [exact Hloss|]. split.
      * rewrite Hlog, <- app_assoc. reflexivity.
      * eapply backward_pass_app; [exact Hpass|].
        apply pass_plain; [exact Hty|constructor].
Qed.

(** A completed epoch, with the heap: the forward pass is the one of
    [predict], and the backward pass starts on the heap the forward pass
    left and ends on the heap the epoch leaves. *)
Lemma run_epoch_pass X Y lr lf k s :
  linear_contract -> layers s <> [] -> selects lf k ->
  exists error out fev bev g_end s',
    _run_epoch X Y lr lf s = (Ok error, s') /\
    (predict X s).1 = Ok out /\
    log (predict X s).2 = log s ++ fev /\
    forward_trace (layers s) X fev out /\
    error = (loss_forward (loss_new k out Y)).2 /\
    log s' =
      log s ++ (fev ++ ELossNew k out Y :: ELossForward error
                    :: ELossBackward
                         (loss_backward (loss_forward (loss_new k out Y)).1).2
                    :: bev) /\
    backward_pass lr (heap (predict X s).2) (rev (layers s))
      (loss_backward (loss_forward (loss_new k out Y)).1).2 bev
      (heap s') g_end.
Proof.
  intros Hc Hne Hsel.
  destruct (forward_loop_run (layers s) [] X None s eq_refl)
    as (out & fev & s1 & Hfwd & Hls1 & Hloss1 & Hlog1 & Hftr).
  change (enumerate_from (length []) (layers s))
    with (enumerate (layers s)) in Hfwd.
  assert (Hfv : match layers s with [] => None | _ => Some out end = Some out)
    by (destruct (layers s); [contradiction|reflexivity]).
  rewrite Hfv in Hfwd. clear Hfv.
  assert (Hpred : predict X s = (Ok out, s1))
    by (rewrite predict_unfold, (bind_ok _ _ _ _ _ Hfwd); reflexivity).
  rewrite Hpred. cbn [fst snd].
  rewrite run_epoch_unfold, (bind_ok _ _ _ _ _ Hfwd). cbn [snd].
  rewrite (bind_ok _ _ _ _ _ (loss_dispatch_selects _ _ _ _ _ Hsel)).
  destruct (loss_forward (loss_new k out Y)) as [unit1 error] eqn:Hlf.
  cbn [fst snd].
  destruct (loss_backward unit1) as [unit2 gradient] eqn:Hlb.
  cbn [fst snd].
  rewrite (bind_ok _ _ _ _ _ (call_loss_forward_run _ _ _ _ Hlf)).
  rewrite (bind_ok _ _ _ _ _ (call_loss_backward_run _ _ _ _ Hlb)).
  rewrite (bind_ok _ _ _ _ _ (append_loss_run _ _)).
  rewrite (bind_ok get _ _ _ _ eq_refl).
  cbn [layers loss heap log].
  match goal with
  | |- context [bind (backward_loop _ _ _) _ ?st] =>
      destruct (backward_loop_pass lr Hc (layers s1) [] gradient st eq_refl)
        as (g_end & bev & s' & Hbwd & Hls' & Hloss' & Hlog' & Hpass)
  end.
  change (enumerate_from (length []) (layers s1))
    with (enumerate (layers s1)) in Hbwd.
  rewrite (bind_ok _ _ _ _ _ Hbwd). unfold ret.
  cbn [layers loss heap log] in Hls', Hloss', Hlog', Hpass.
  rewrite Hls1 in Hpass.
  exists error, out, fev, bev, g_end, s'.
  rewrite Hlf. cbn [fst snd]. rewrite Hlb. cbn [fst snd].
  split; [reflexivity|]. split; [reflexivity|].
  split; [exact Hlog1|]. split; [exact Hftr|]. split; [reflexivity|].
  split; [rewrite Hlog', Hlog1, <- !app_assoc; reflexivity|].
  exact Hpass.
Qed.

(** ** The claims on the epoch routine and on [train] *)

(** C1. In an epoch that reaches its backward pass (non-empty model,
    supported selector, ['Linear'] layers returning triples), what follows
    the loss evaluation is a backward pass over the layers in reverse
    insertion order, started on the gradient of the loss and on the objects
    as the forward pass left them.  A layer whose [type] is not ['Linear']
    at its visit gets [backward(gradient)]; what that returns is the
    gradient of the layer before it.  A layer whose [type] is ['Linear'] at
    its visit returns [(gradient, dW, dB)]; its [optimize(dW, dB,
    learning_rate)] is the very next call, it is applied to the object as
    [backward] left it, before the [backward] of the layer before it, which
    gets [gradient].  The heap the epoch leaves is the heap this pass
    leaves. *)
Theorem backward_pass_order X Y lr lf k s :
  linear_contract -> layers s <> [] -> selects lf k ->
  exists error fev out gradient bev g_end s',
    _run_epoch X Y lr lf s = (Ok error, s') /\
    log s' = log s ++ (fev ++ ELossNew k out Y :: ELossForward error
                           :: ELossBackward gradient :: bev) /\
    forward_trace (layers s) X fev out /\
    backward_trace lr (rev (layers s)) gradient bev g_end /\
    (predict X s).1 = Ok out /\
    gradient = (loss_backward (loss_forward (loss_new k out Y)).1).2 /\
    backward_pass lr (heap (predict X s).2) (rev (layers s)) gradient bev
      (heap s') g_end.
Proof.
  intros Hc Hne Hsel.
  destruct (run_epoch_pass X Y lr lf k s Hc Hne Hsel)
    as (error & out & fev & bev & g_end & s' & Hrun & Hout & _ & Hf & _
        & Hlog & Hpass).
  eexists error, fev, out, _, bev, g_end, s'.
  split; [exact Hrun|]. split; [exact Hlog|]. split; [exact Hf|].
  split; [exact (backward_pass_trace _ _ _ _ _ _ _ Hpass)|].
  split; [exact Hout|]. split; [reflexivity|exact Hpass].
Qed.


(** C7. A verbose [train] call (on a model and selector for which the
    epochs complete) prints exactly after the epochs whose index is
    divisible by 50, each line carrying the index and that epoch's loss;
    with 150 epochs these are the three indices 0, 50 and 100. *)
Theorem verbose_reports X Y lr lf k epochs s :
  linear_contract -> layers s <> [] -> selects lf k ->
  exists errors evs s',
    train X Y lr epochs lf true s = (Ok tt, s') /\
    loss s' = loss s ++ errors /\
    log s' = log s ++ evs /\
    printed evs =
      List.filter (fun p => (p.1 mod 50 =? 0)%Z)
        (combine (range epochs) errors) /\
    map fst (printed evs) =
      List.filter (fun n => (n mod 50 =? 0)%Z) (range epochs) /\
    (epochs = 150%Z -> map fst (printed evs) = [0; 50; 100]%Z).
Proof.
  intros Hc Hne Hsel.
  destruct (train_loop_ok X Y lr lf k true Hc Hsel (range epochs) s Hne)
    as (evs & errors & s' & Hrun & _ & Hloss & Hlog & Htr).
  destruct (train_trace_shows _ _ _ _ _ _ _ _ _ Htr) as [_ Hp].
  assert (Hmap : map fst (printed evs) =
                 List.filter (fun n => (n mod 50 =? 0)%Z) (range epochs)).
  { rewrite Hp. apply (filter_combine_fst (fun n => (n mod 50 =? 0)%Z)).
    apply (train_trace_length _ _ _ _ _ _ _ _ _ Htr). }
  exists errors, evs, s'. repeat split; try assumption.
  intros ->. rewrite Hmap. reflexivity.
Qed.

(** C10. A [train] call whose epoch count is zero or negative runs no
    epoch and returns: the state (layer objects, [self.loss], log of calls
    and of printed lines) is the one it started from, whatever the other
    arguments are, an unsupported selector included. *)
Theorem train_no_epochs X Y lr epochs lf verbose s :
  (epochs <= 0)%Z ->
  train X Y lr epochs lf verbose s = (Ok tt, s).
Proof.
  intros Hle. unfold train, range.
  replace (Z.to_nat epochs) with 0 by lia. reflexivity.
Qed.

Lemma prefix_app (p q : string) : String.prefix p (p ++ q) = true.
Proof.
  induction p as [|c p IH]; simpl.
  - destruct q; reflexivity.
  - destruct (Ascii.ascii_dec c c); [exact IH|contradiction].
Qed.

Lemma predict_state X s :
  (predict X s).2 = (forward_loop (enumerate (layers s)) X None s).2.
Proof.
  rewrite predict_unfold.
  destruct (forward_loop_run (layers s) [] X None s eq_refl)
    as (out & fev & s1 & Hfwd & _).
  change (enumerate_from (length []) (layers s))
    with (enumerate (layers s)) in Hfwd.
  rewrite (bind_ok _ _ _ _ _ Hfwd), Hfwd. cbn [snd].
  destruct (layers s); reflexivity.
Qed.

(** With an unsupported selector the epoch runs its forward pass and then
    raises, in the state the forward pass left. *)
Lemma run_epoch_unsupported X Y lr lf s :
  ~ supported lf ->
  _run_epoch X Y lr lf s =
    (Raise (ValueError (lf ++ " is not supported.")), (predict X s).2).
Proof.
  intros Hns. rewrite predict_state, run_epoch_unfold.
  destruct (forward_loop_run (layers s) [] X None s eq_refl)
    as (out & fev & s1 & Hfwd & _).
  change (enumerate_from (length []) (layers s))
    with (enumerate (layers s)) in Hfwd.
  rewrite (bind_ok _ _ _ _ _ Hfwd), Hfwd. cbn [snd].
  rewrite (bind_raise _ _ _ _ _ (loss_dispatch_unsupported _ _ _ _ Hns)).
  reflexivity.
Qed.

(** C4. The loss dispatch of the epoch routine builds a
    [BinaryCrossEntropy] unit from the forward output and the targets when
    the selector is exactly ["BinaryCrossEntropy"], a [MeanSquaredError] unit
    when it is exactly ["MeanSquaredError"], and it succeeds for no other
    string: any other selector raises [ValueError] with the message
    [<selector> is not supported.], which starts with the selector, and the
    epoch routine ends with that exception.  For a non-empty model whose
    ['Linear'] layers return triples the epoch routine returns if and only
    if the selector is one of the two. *)
Theorem loss_selection X Y lr lf out s :
  (lf = "BinaryCrossEntropy" ->
   loss_dispatch lf (Some out) Y s = new_loss BinaryCrossEntropy out Y s) /\
  (lf = "MeanSquaredError" ->
   loss_dispatch lf (Some out) Y s = new_loss MeanSquaredError out Y s) /\
  ((exists l s', loss_dispatch lf (Some out) Y s = (Ok l, s')) <->
   supported lf) /\
  (~ supported lf ->
   (forall fv,
      loss_dispatch lf fv Y s =
        (Raise (ValueError (lf ++ " is not supported.")), s)) /\
   String.prefix lf (lf ++ " is not supported.") = true /\
   _run_epoch X Y lr lf s =
     (Raise (ValueError (lf ++ " is not supported.")), (predict X s).2)) /\
  (linear_contract -> layers s <> [] ->
   ((exists error s', _run_epoch X Y lr lf s = (Ok error, s')) <->
    supported lf)).
Proof.
  split; [intros ->; reflexivity|].
  split; [intros ->; reflexivity|].
  split; [|split].
  - split.
    + intros (l & s' & Hrun).
      destruct (String.eqb_spec lf "BinaryCrossEntropy") as [->|Hn1];
        [left; reflexivity|].
      destruct (String.eqb_spec lf "MeanSquaredError") as [->|Hn2];
        [right; reflexivity|].
      rewrite loss_dispatch_unsupported in Hrun by (intros [?|?]; contradiction).
      discriminate.
    + intros Hsup. destruct (supported_selects lf Hsup) as [k Hsel].
      rewrite (loss_dispatch_selects _ _ _ _ _ Hsel). eauto.
  - intros Hns. split; [|split].
    + intros fv. apply loss_dispatch_unsupported, Hns.
    + apply prefix_app.
    + apply run_epoch_unsupported, Hns.
  - intros Hc Hne. split.
    + intros (error & s' & Hrun).
      destruct (String.eqb_spec lf "BinaryCrossEntropy") as [->|Hn1];
        [left; reflexivity|].
      destruct (String.eqb_spec lf "MeanSquaredError") as [->|Hn2];
        [right; reflexivity|].
      rewrite run_epoch_unsupported in Hrun by (intros [?|?]; contradiction).
      discriminate.
    + intros Hsup. destruct (supported_selects lf Hsup) as [k Hsel].
      destruct (run_epoch_ok X Y lr lf k s Hc Hne Hsel)
        as (error & evs & s' & Hrun & _).
      eauto.
Qed.

Lemma range_positive n :
  (0 < n)%Z -> exists rest, range n = 0%Z :: rest.
Proof.
  intros Hpos. unfold range.
  destruct (Z.to_nat n) as [|m] eqn:Hn; [lia|].
  simpl. eauto.
Qed.

(** C3 (as amended). With an unsupported selector and at least one epoch,
    [train] raises the [ValueError] in its first epoch, after that epoch's
    forward pass: the state it leaves is the one [predict(X)] leaves.  The
    only calls made are the [forward] calls of that pass, one per layer in
    insertion order; no loss unit is built, no [backward] or [optimize]
    runs, [self.loss] is unchanged, and whatever part of a layer [forward]
    preserves (its parameters) is unchanged. *)
Theorem unsupported_selector_aborts X Y lr epochs lf verbose s :
  ~ supported lf -> (0 < epochs)%Z ->
  exists fev out s',
    train X Y lr epochs lf verbose s =
      (Raise (ValueError (lf ++ " is not supported.")), s') /\
    s' = (predict X s).2 /\
    layers s' = layers s /\
    loss s' = loss s /\
    log s' = log s ++ fev /\
    forward_trace (layers s) X fev out /\
    (forall (P : Type) (params : obj -> P),
       (forall o x, params (forward o x).1 = params o) ->
       forall a, params (heap s' a) = params (heap s a)).
Proof.
  intros Hns Hpos. destruct (range_positive epochs Hpos) as [rest Hr].
  destruct (forward_loop_run (layers s) [] X None s eq_refl)
    as (out & fev & s1 & Hfwd & Hls & Hloss & Hlog & Htr).
  change (enumerate_from (length []) (layers s))
    with (enumerate (layers s)) in Hfwd.
  assert (Hs1 : (predict X s).2 = s1) by (rewrite predict_state, Hfwd; reflexivity).
  exists fev, out, s1. split; [|repeat split; try assumption].
  - unfold train. rewrite Hr. simpl.
    rewrite (bind_raise _ _ _ _ _ (run_epoch_unsupported X Y lr lf s Hns)).
    rewrite Hs1. reflexivity.
  - symmetry. exact Hs1.
  - intros P params Hp a.
    apply (forward_loop_preserves params Hp _ _ _ _ _ _ Hfwd).
Qed.

(** ** The visits of the backward pass *)

Lemma backward_trace_visits lr ls g evs g_end :
  backward_trace lr ls g evs g_end ->
  exists visits : list visit,
    evs = flat_map (visit_events lr) visits /\
    map visit_layer visits = ls /\
    Forall (fun v => is_Some (visit_update v) <-> visit_type v = "Linear")
      visits.
Proof.
  induction 1 as [g|a t ls g r evs g_end Ht _ (vs & -> & Hm & Hall)
                 |a ls g r g' dW dB evs g_end Hit _ (vs & -> & Hm & Hall)].
  - exists []. repeat split. constructor.
  - exists (Visit a t g r None :: vs). simpl. rewrite Hm.
    repeat split. constructor; [|exact Hall]. simpl. split.
    + intros [x Hx]. discriminate.
    + intros Heq. contradiction.
  - exists (Visit a "Linear" g r (Some (dW, dB)) :: vs). simpl. rewrite Hm.
    repeat split. constructor; [|exact Hall]. simpl. split; eauto.
Qed.

(** C9. In the backward pass of an epoch every layer is visited once, in
    reverse insertion order; a visit reads the layer's [type], calls its
    [backward], and calls its [optimize] if and only if the [type] of the
    object at that visit is exactly ['Linear'].  A layer with any other type
    gets the single [backward] call, whatever that call returns becomes the
    gradient, and the object changes through that call alone.  A ['Linear']
    layer gets [backward] and then [optimize] with the last two items of the
    triple and the learning rate, applied to the object as [backward] left
    it. *)
Theorem optimize_iff_linear X Y lr lf k s :
  linear_contract -> layers s <> [] -> selects lf k ->
  (exists error fev out gradient visits g_end s',
     _run_epoch X Y lr lf s = (Ok error, s') /\
     log s' = log s ++ (fev ++ ELossNew k out Y :: ELossForward error
                            :: ELossBackward gradient
                            :: flat_map (visit_events lr) visits) /\
     forward_trace (layers s) X fev out /\
     map visit_layer visits = rev (layers s) /\
     Forall (fun v => is_Some (visit_update v) <-> visit_type v = "Linear")
       visits /\
     (predict X s).1 = Ok out /\
     gradient = (loss_backward (loss_forward (loss_new k out Y)).1).2 /\
     backward_pass lr (heap (predict X s).2) (rev (layers s)) gradient
       (flat_map (visit_events lr) visits) (heap s') g_end) /\
  (forall i a g s0,
     layers s0 !! i = Some a ->
     type (heap s0 a) <> "Linear" ->
     backward_body i g lr s0 =
       (Ok (backward (heap s0 a) g).2,
        State (layers s0) (loss s0)
          (<[a:=(backward (heap s0 a) g).1]> (heap s0))
          (log s0 ++ [EGetType a (type (heap s0 a));
                      EBackward a g (backward (heap s0 a) g).2]))) /\
  (forall i a g s0 g' dW dB,
     layers s0 !! i = Some a ->
     type (heap s0 a) = "Linear" ->
     iter (backward (heap s0 a) g).2 = Some [g'; dW; dB] ->
     backward_body i g lr s0 =
       (Ok g',
        State (layers s0) (loss s0)
          (<[a:=optimize (backward (heap s0 a) g).1 dW dB lr]>
             (<[a:=(backward (heap s0 a) g).1]> (heap s0)))
          (log s0 ++ [EGetType a "Linear";
                      EBackward a g (backward (heap s0 a) g).2;
                      EOptimize a dW dB lr]))).
Proof.
  intros Hc Hne Hsel. split; [|split].
  - destruct (run_epoch_pass X Y lr lf k s Hc Hne Hsel)
      as (error & out & fev & bev & g_end & s' & Hrun & Hout & _ & Hf & _
          & Hlog & Hpass).
    destruct (backward_trace_visits _ _ _ _ _
                (backward_pass_trace _ _ _ _ _ _ _ Hpass))
      as (visits & -> & Hm & Hall).
    eexists error, fev, out, _, visits, g_end, s'.
    split; [exact Hrun|]. split; [exact Hlog|]. split; [exact Hf|].
    split; [exact Hm|]. split; [exact Hall|]. split; [exact Hout|].
    split; [reflexivity|exact Hpass].
  - intros i a g s0 Hi Hty. apply backward_body_plain; assumption.
  - intros i a g s0 g' dW dB Hi Hty Hit.
    apply backward_body_linear; assumption.
Qed.

(** ** Determinism *)

Lemma deterministic_pure {A : Type} L (m : M A) (r : result A) :
  (forall s, m s = (r, s)) -> deterministic L m.
Proof.
  intros Hm s1 s2 Hag. rewrite !Hm. split; [reflexivity|].
  split; [exact Hag|]. exists [], []. rewrite !app_nil_r. repeat split.
Qed.

Lemma deterministic_bind {A B : Type} L (m : M A) (f : A -> M B) :
  deterministic L m -> (forall v, deterministic L (f v)) ->
  deterministic L (bind m f).
Proof.
  intros Hm Hf s1 s2 Hag. specialize (Hm s1 s2 Hag). unfold bind.
  destruct (m s1) as [r1 t1], (m s2) as [r2 t2].
  destruct Hm as (Hr & Hag' & evs & errs & Hl1 & Hl2 & Hh1 & Hh2).
  simpl in *. subst r2. destruct r1 as [v|e].
  - specialize (Hf v t1 t2 Hag').
    destruct (f v t1) as [r1 u1], (f v t2) as [r2 u2].
    destruct Hf as (Hr & Hag'' & evs' & errs' & Hl1' & Hl2' & Hh1' & Hh2').
    simpl in *. split; [exact Hr|]. split; [exact Hag''|].
    exists (evs ++ evs'), (errs ++ errs'). simpl.
    rewrite Hl1', Hl2', Hh1', Hh2', Hl1, Hl2, Hh1, Hh2, <- !app_assoc.
    repeat split.
  - split; [reflexivity|]. split; [exact Hag'|].
    exists evs, errs. repeat split; assumption.
Qed.

Lemma deterministic_layer_at {B : Type} L i (f : addr -> M B) :
  (forall a, a ∈ L -> deterministic L (f a)) ->
  deterministic L (bind (layer_at i) f).
Proof.
  intros Hf s1 s2 Hag. unfold bind, layer_at.
  destruct Hag as (H1 & H2 & Hh). rewrite H1, H2.
  destruct (L !! i) as [a|] eqn:Hi.
  - apply Hf; [eapply list_elem_of_lookup_2, Hi|]. repeat split; assumption.
  - split; [reflexivity|]. split; [repeat split; assumption|].
    exists [], []. rewrite !app_nil_r. repeat split.
Qed.

Lemma deterministic_get {B : Type} L (f : state -> M B) (m : M B) :
  (forall s s0, layers s = L -> f s s0 = m s0) ->
  deterministic L m -> deterministic L (bind get f).
Proof.
  intros Hf Hm s1 s2 Hag. unfold bind, get.
  rewrite (Hf s1 s1), (Hf s2 s2) by apply Hag. apply Hm, Hag.
Qed.

Lemma deterministic_emit L (e : event) :
  deterministic L (@emit Val obj e).
Proof.
  intros s1 s2 Hag. split; [reflexivity|]. split; [exact Hag|].
  exists [e], []. rewrite !app_nil_r. repeat split.
Qed.

Lemma deterministic_append_loss L error :
  deterministic L (@append_loss Val obj error).
Proof.
  intros s1 s2 Hag. split; [reflexivity|]. split; [exact Hag|].
  exists [], [error]. rewrite !app_nil_r. repeat split.
Qed.

(** A method call on a layer of the model: both runs find the same object,
    so they get the same value and leave the same object. *)
Lemma agree_insert L s1 s2 a o evs1 evs2 :
  agree L s1 s2 ->
  agree L (State (layers s1) (loss s1) (<[a:=o]> (heap s1)) evs1)
          (State (layers s2) (loss s2) (<[a:=o]> (heap s2)) evs2).
Proof.
  intros (H1 & H2 & Hh). repeat split; simpl; try assumption.
  intros b Hb. destruct (decide (a = b)) as [->|Hne].
  - rewrite !fn_lookup_insert. reflexivity.
  - rewrite !fn_lookup_insert_ne by exact Hne. apply Hh, Hb.
Qed.

Lemma deterministic_call_forward L a X :
  a ∈ L -> deterministic L (call_forward a X).
Proof.
  intros Ha s1 s2 Hag. rewrite !call_forward_run.
  assert (Ho : heap s1 a = heap s2 a) by (apply Hag, Ha). rewrite Ho.
  split; [reflexivity|]. split; [apply agree_insert, Hag|].
  eexists _, []. simpl. split; [reflexivity|]. split; [reflexivity|].
  rewrite !app_nil_r. split; reflexivity.
Qed.

Lemma deterministic_call_backward L a g :
  a ∈ L -> deterministic L (call_backward a g).
Proof.
  intros Ha s1 s2 Hag. rewrite !call_backward_run.
  assert (Ho : heap s1 a = heap s2 a) by (apply Hag, Ha). rewrite Ho.
  split; [reflexivity|]. split; [apply agree_insert, Hag|].
  eexists _, []. simpl. split; [reflexivity|]. split; [reflexivity|].
  rewrite !app_nil_r. split; reflexivity.
Qed.

Lemma deterministic_call_optimize L a dW dB lr :
  a ∈ L -> deterministic L (call_optimize a dW dB lr).
Proof.
  intros Ha s1 s2 Hag. rewrite !call_optimize_run.
  assert (Ho : heap s1 a = heap s2 a) by (apply Hag, Ha). rewrite Ho.
  split; [reflexivity|]. split; [apply agree_insert, Hag|].
  eexists _, []. simpl. split; [reflexivity|]. split; [reflexivity|].
  rewrite !app_nil_r. split; reflexivity.
Qed.

Lemma deterministic_get_type L a :
  a ∈ L -> deterministic L (get_type a).
Proof.
  intros Ha s1 s2 Hag. rewrite !get_type_run.
  assert (Ho : heap s1 a = heap s2 a) by (apply Hag, Ha). rewrite Ho.
  split; [reflexivity|]. split; [apply Hag|].
  eexists _, []. simpl. split; [reflexivity|]. split; [reflexivity|].
  rewrite !app_nil_r. split; reflexivity.
Qed.

Lemma deterministic_forward_loop L idx : forall X fv,
  deterministic L (forward_loop idx X fv).
Proof.
  induction idx as [|[i b] idx IH]; intros X fv; simpl.
  - apply (deterministic_pure L _ (Ok (X, fv))). reflexivity.
  - apply deterministic_layer_at. intros a Ha.
    apply deterministic_bind; [apply deterministic_call_forward, Ha|].
    intros y. apply IH.
Qed.

Lemma deterministic_unpack3 L r :
  deterministic L (@unpack3 Val obj _ r).
Proof.
  unfold unpack3.
  destruct (iter r) as [[|g [|dW [|dB [|x items]]]]|];
    eapply deterministic_pure; reflexivity.
Qed.

Lemma deterministic_backward_body L i g lr :
  deterministic L (backward_body i g lr).
Proof.
  unfold backward_body. apply deterministic_layer_at. intros a Ha.
  apply deterministic_bind; [apply deterministic_get_type, Ha|].
  intros t. destruct (negb (t =? "Linear")).
  - apply deterministic_layer_at. intros a' Ha'.
    apply deterministic_call_backward, Ha'.
  - apply deterministic_layer_at. intros a' Ha'.
    apply deterministic_bind; [apply deterministic_call_backward, Ha'|].
    intros r. apply deterministic_bind; [apply deterministic_unpack3|].
    intros [[g' dW] dB]. apply deterministic_layer_at. intros a'' Ha''.
    apply deterministic_bind; [apply deterministic_call_optimize, Ha''|].
    intros _. apply (deterministic_pure L _ (Ok g')). reflexivity.
Qed.

Lemma deterministic_backward_loop L lr idx : forall g,
  deterministic L (backward_loop idx g lr).
Proof.
  induction idx as [|[i b] idx IH]; intros g; simpl.
  - apply (deterministic_pure L _ (Ok g)). reflexivity.
  - apply deterministic_bind; [apply deterministic_backward_body|].
    intros g'. apply IH.
Qed.

Lemma deterministic_loss_dispatch L lf fv Y :
  @deterministic Val obj _ L (loss_dispatch lf fv Y).
Proof.
  assert (Hnew : forall k, @deterministic Val obj _ L
            (let* out := read_local "forward" fv in new_loss k out Y)).
  { intros k. apply deterministic_bind.
    - destruct fv; eapply deterministic_pure; reflexivity.
    - intros out. apply deterministic_bind; [apply deterministic_emit|].
      intros _. eapply deterministic_pure. reflexivity. }
  unfold loss_dispatch.
  destruct (lf =? "BinaryCrossEntropy"); [apply Hnew|].
  destruct (lf =? "MeanSquaredError"); [apply Hnew|].
  eapply deterministic_pure. reflexivity.
Qed.

Lemma deterministic_run_epoch L X Y lr lf :
  deterministic L (_run_epoch X Y lr lf).
Proof.
  unfold _run_epoch.
  apply (deterministic_get L _
           (let* r := forward_loop (enumerate L) X None in
            let* loss_f := loss_dispatch lf r.2 Y in
            let* (loss_f, error) := call_loss_forward loss_f in
            let* (_, gradient) := call_loss_backward loss_f in
            append_loss error ;;
            let* s := get in
            backward_loop (rev (enumerate (layers s))) gradient lr ;;
            ret error)).
  { intros s s0 <-. apply bind_ext. intros [x fv] s1. reflexivity. }
  apply deterministic_bind; [apply deterministic_forward_loop|].
  intros [x fv]. apply deterministic_bind; [apply deterministic_loss_dispatch|].
  intros l. apply deterministic_bind.
  { unfold call_loss_forward. destruct (loss_forward l).
    apply deterministic_bind; [apply deterministic_emit|].
    intros _. eapply deterministic_pure. reflexivity. }
  intros [l' error]. apply deterministic_bind.
  { unfold call_loss_backward. destruct (loss_backward l').
    apply deterministic_bind; [apply deterministic_emit|].
    intros _. eapply deterministic_pure. reflexivity. }
  intros [l'' gradient].
  apply deterministic_bind; [apply deterministic_append_loss|]. intros _.
  apply (deterministic_get L _
           (backward_loop (rev (enumerate L)) gradient lr ;; ret error)).
  { intros s s0 <-. reflexivity. }
  apply deterministic_bind; [apply deterministic_backward_loop|].
  intros g'. apply (deterministic_pure L _ (Ok error)). reflexivity.
Qed.

(** C6. The epoch routine is deterministic.  Two runs with the same [X],
    [Y], learning rate and selector, started from states that hold the same
    layer sequence and the same object behind each layer (whatever else
    differs: [self.loss], the log, objects the model does not hold), return
    the same error or raise the same exception, make the same calls in the
    same order, append the same entries to [self.loss] and leave the same
    object behind each layer. *)
Theorem run_epoch_deterministic X Y lr lf s1 s2 :
  layers s1 = layers s2 ->
  (forall a, a ∈ layers s1 -> heap s1 a = heap s2 a) ->
  (_run_epoch X Y lr lf s1).1 = (_run_epoch X Y lr lf s2).1 /\
  layers (_run_epoch X Y lr lf s1).2 = layers (_run_epoch X Y lr lf s2).2 /\
  (forall a, a ∈ layers s1 ->
     heap (_run_epoch X Y lr lf s1).2 a = heap (_run_epoch X Y lr lf s2).2 a) /\
  exists evs errors,
    log (_run_epoch X Y lr lf s1).2 = log s1 ++ evs /\
    log (_run_epoch X Y lr lf s2).2 = log s2 ++ evs /\
    loss (_run_epoch X Y lr lf s1).2 = loss s1 ++ errors /\
    loss (_run_epoch X Y lr lf s2).2 = loss s2 ++ errors.
Proof.
  intros Hl Hh.
  destruct (deterministic_run_epoch (layers s1) X Y lr lf s1 s2)
    as (Hr & (H1 & H2 & Hh') & Hex).
  { repeat split; [symmetry; exact Hl|exact Hh]. }
  split; [exact Hr|]. split; [congruence|]. split; [exact Hh'|exact Hex].
Qed.

End Properties.

(** * The properties on the mock model *)

Lemma mock_linear_contract :
  @linear_contract Mock.value Mock.layer _ _.
Proof.
  intros o g Hty. simpl in Hty. simpl. rewrite Hty. simpl.
  eexists _, _, _. reflexivity.
Qed.

Lemma backward_pass_order_witness :
  linear_contract /\ layers Mock.three_layers <> [] /\
  selects "MeanSquaredError" MeanSquaredError /\
  exists error fev out gradient bev g_end s',
    _run_epoch (Mock.Num 1) (Mock.Num 5) (Mock.Num 1) "MeanSquaredError"
      Mock.three_layers = (Ok error, s') /\
    log s' = log Mock.three_layers
             ++ (fev ++ ELossNew MeanSquaredError out (Mock.Num 5)
                     :: ELossForward error :: ELossBackward gradient :: bev) /\
    forward_trace (layers Mock.three_layers) (Mock.Num 1) fev out /\
    backward_trace (Mock.Num 1) (rev (layers Mock.three_layers)) gradient bev
      g_end /\
    (predict (Mock.Num 1) Mock.three_layers).1 = Ok out /\
    gradient =
      (loss_backward
         (loss_forward (loss_new MeanSquaredError out (Mock.Num 5))).1).2 /\
    backward_pass (Mock.Num 1) (heap (predict (Mock.Num 1) Mock.three_layers).2)
      (rev (layers Mock.three_layers)) gradient bev (heap s') g_end.
Proof.
  split; [exact mock_linear_contract|].
  split; [discriminate|]. split; [reflexivity|].
  apply (backward_pass_order (Mock.Num 1) (Mock.Num 5) (Mock.Num 1)
           "MeanSquaredError" MeanSquaredError Mock.three_layers).
  - exact mock_linear_contract.
  - discriminate.
  - reflexivity.
Defined.

Lemma predict_is_composition_witness :
  layers Mock.three_layers <> [] /\
  predict (Mock.Num 1) Mock.three_layers =
    composition (rev (layers Mock.three_layers)) (Mock.Num 1)
      Mock.three_layers.
Proof.
  split; [discriminate|].
  apply (predict_is_composition Mock.three_layers (Mock.Num 1)). discriminate.
Defined.

Lemma predict_empty_model_witness :
  (layers Mock.empty_model = [] /\
   predict (Mock.Num 1) Mock.empty_model =
     (Raise (UnboundLocalError "forward"), Mock.empty_model)) /\
  (layers Mock.one_layer <> [] /\
   exists out s', predict (Mock.Num 1) Mock.one_layer = (Ok out, s')).
Proof.
  split; split.
  - reflexivity.
  - apply (proj1 (predict_empty_model Mock.empty_model (Mock.Num 1))).
    reflexivity.
  - discriminate.
  - apply (proj2 (predict_empty_model Mock.one_layer (Mock.Num 1))).
    discriminate.
Defined.

Lemma huber_unsupported : ~ supported "Huber".
Proof. intros [H|H]; discriminate H. Qed.

(** C3, as the specification states it, fails: on the one-layer model a
    one-epoch [train] with the selector ["Huber"] raises the [ValueError]
    only after the layer's [forward] has run (the call is in the log and the
    layer has cached its input), and a zero-epoch [train] with the same
    selector does not raise at all. *)
Lemma fails_fast_refuted :
  ~ fails_fast (Mock.Num 1) (Mock.Num 5) (Mock.Num 1) 1 "Huber" false
      Mock.one_layer /\
  (train (Mock.Num 1) (Mock.Num 5) (Mock.Num 1) 1 "Huber" false
     Mock.one_layer).1 = Raise (ValueError "Huber is not supported.") /\
  log (train (Mock.Num 1) (Mock.Num 5) (Mock.Num 1) 1 "Huber" false
         Mock.one_layer).2 = [EForward 0 (Mock.Num 1) (Mock.Num 3)] /\
  Mock.cache (heap Mock.one_layer 0) = 0%Z /\
  Mock.cache (heap (train (Mock.Num 1) (Mock.Num 5) (Mock.Num 1) 1 "Huber"
                      false Mock.one_layer).2 0) = 1%Z /\
  ~ fails_fast (Mock.Num 1) (Mock.Num 5) (Mock.Num 1) 0 "Huber" false
      Mock.one_layer /\
  train (Mock.Num 1) (Mock.Num 5) (Mock.Num 1) 0 "Huber" false
    Mock.one_layer = (Ok tt, Mock.one_layer).
Proof.
  split; [|split; [|split; [|split; [|split; [|split]]]]];
    try (vm_compute; reflexivity).
  - unfold fails_fast. intros H.
    apply (f_equal (fun r => log r.2)) in H. vm_compute in H. discriminate H.
  - unfold fails_fast. intros H.
    apply (f_equal fst) in H. vm_compute in H. discriminate H.
Qed.

Lemma unsupported_selector_aborts_witness :
  ~ supported "Huber" /\ (0 < 3)%Z /\
  exists fev out s',
    train (Mock.Num 1) (Mock.Num 5) (Mock.Num 1) 3 "Huber" true
      Mock.three_layers =
      (Raise (ValueError ("Huber" ++ " is not supported.")), s') /\
    s' = (predict (Mock.Num 1) Mock.three_layers).2 /\
    layers s' = layers Mock.three_layers /\
    loss s' = loss Mock.three_layers /\
    log s' = log Mock.three_layers ++ fev /\
    forward_trace (layers Mock.three_layers) (Mock.Num 1) fev out /\
    (forall (P : Type) (params : Mock.layer -> P),
       (forall o x, params (forward o x).1 = params o) ->
       forall a, params (heap s' a) = params (heap Mock.three_layers a)).
Proof.
  split; [exact huber_unsupported|]. split; [reflexivity|].
  apply (unsupported_selector_aborts (Mock.Num 1) (Mock.Num 5) (Mock.Num 1)
           3 "Huber" true Mock.three_layers).
  - exact huber_unsupported.
  - reflexivity.
Defined.

Lemma loss_selection_witness :
  ("MeanSquaredError" = "MeanSquaredError" /\
   loss_dispatch "MeanSquaredError" (Some (Mock.Num 9)) (Mock.Num 5)
     Mock.three_layers =
     new_loss MeanSquaredError (Mock.Num 9) (Mock.Num 5) Mock.three_layers) /\
  (~ supported "Huber" /\
   String.prefix "Huber" ("Huber" ++ " is not supported.") = true /\
   _run_epoch (Mock.Num 1) (Mock.Num 5) (Mock.Num 1) "Huber"
     Mock.three_layers =
     (Raise (ValueError ("Huber" ++ " is not supported.")),
      (predict (Mock.Num 1) Mock.three_layers).2)) /\
  (linear_contract /\ layers Mock.three_layers <> [] /\
   ((exists error s',
       _run_epoch (Mock.Num 1) (Mock.Num 5) (Mock.Num 1) "BinaryCrossEntropy"
         Mock.three_layers = (Ok error, s')) <->
    supported "BinaryCrossEntropy")).
Proof.
  split; [|split].
  - split; [reflexivity|].
    apply (proj1 (proj2 (loss_selection (Mock.Num 1) (Mock.Num 5) (Mock.Num 1)
                           "MeanSquaredError" (Mock.Num 9)
                           Mock.three_layers))).
    reflexivity.
  - split; [exact huber_unsupported|].
    apply (proj1 (proj2 (proj2 (proj2
             (loss_selection (Mock.Num 1) (Mock.Num 5) (Mock.Num 1) "Huber"
                (Mock.Num 9) Mock.three_layers))))).
    exact huber_unsupported.
  - split; [exact mock_linear_contract|]. split; [discriminate|].
    apply (proj2 (proj2 (proj2 (proj2
             (loss_selection (Mock.Num 1) (Mock.Num 5) (Mock.Num 1)
                "BinaryCrossEntropy" (Mock.Num 9) Mock.three_layers))))).
    + exact mock_linear_contract.
    + discriminate.
Defined.


Lemma verbose_reports_witness :
  linear_contract /\ layers Mock.three_layers <> [] /\
  selects "MeanSquaredError" MeanSquaredError /\
  exists errors evs s',
    train (Mock.Num 1) (Mock.Num 5) (Mock.Num 0) 150 "MeanSquaredError" true
      Mock.three_layers = (Ok tt, s') /\
    loss s' = loss Mock.three_layers ++ errors /\
    log s' = log Mock.three_layers ++ evs /\
    printed evs =
      List.filter (fun p => (p.1 mod 50 =? 0)%Z)
        (combine (range 150) errors) /\
    map fst (printed evs) =
      List.filter (fun n => (n mod 50 =? 0)%Z) (range 150) /\
    (150%Z = 150%Z -> map fst (printed evs) = [0; 50; 100]%Z).
Proof.
  split; [exact mock_linear_contract|].
  split; [discriminate|]. split; [reflexivity|].
  apply (verbose_reports (Mock.Num 1) (Mock.Num 5) (Mock.Num 0)
           "MeanSquaredError" MeanSquaredError 150 Mock.three_layers).
  - exact mock_linear_contract.
  - discriminate.
  - reflexivity.
Defined.

Lemma optimize_iff_linear_witness :
  linear_contract /\ layers Mock.three_layers <> [] /\
  selects "BinaryCrossEntropy" BinaryCrossEntropy /\
  (exists error fev out gradient visits g_end s',
     _run_epoch (Mock.Num 1) (Mock.Num 5) (Mock.Num 1) "BinaryCrossEntropy"
       Mock.three_layers = (Ok error, s') /\
     log s' = log Mock.three_layers
              ++ (fev ++ ELossNew BinaryCrossEntropy out (Mock.Num 5)
                      :: ELossForward error :: ELossBackward gradient
                      :: flat_map (visit_events (Mock.Num 1)) visits) /\
     forward_trace (layers Mock.three_layers) (Mock.Num 1) fev out /\
     map visit_layer visits = rev (layers Mock.three_layers) /\
     Forall (fun v => is_Some (visit_update v) <-> visit_type v = "Linear")
       visits /\
     (predict (Mock.Num 1) Mock.three_layers).1 = Ok out /\
     gradient =
       (loss_backward
          (loss_forward (loss_new BinaryCrossEntropy out (Mock.Num 5))).1).2 /\
     backward_pass (Mock.Num 1)
       (heap (predict (Mock.Num 1) Mock.three_layers).2)
       (rev (layers Mock.three_layers)) gradient
       (flat_map (visit_events (Mock.Num 1)) visits) (heap s') g_end) /\
  (layers Mock.three_layers !! 1 = Some 1 /\
   type (heap Mock.three_layers 1) <> "Linear" /\
   backward_body 1 (Mock.Num 4) (Mock.Num 1) Mock.three_layers =
     (Ok (backward (heap Mock.three_layers 1) (Mock.Num 4)).2,
      State (layers Mock.three_layers) (loss Mock.three_layers)
        (<[1:=(backward (heap Mock.three_layers 1) (Mock.Num 4)).1]>
           (heap Mock.three_layers))
        (log Mock.three_layers
         ++ [EGetType 1 (type (heap Mock.three_layers 1));
             EBackward 1 (Mock.Num 4)
               (backward (heap Mock.three_layers 1) (Mock.Num 4)).2]))) /\
  (layers Mock.three_layers !! 2 = Some 2 /\
   type (heap Mock.three_layers 2) = "Linear" /\
   iter (backward (heap Mock.three_layers 2) (Mock.Num 4)).2 =
     Some [Mock.Num 12; Mock.Num 0; Mock.Num 4] /\
   backward_body 2 (Mock.Num 4) (Mock.Num 1) Mock.three_layers =
     (Ok (Mock.Num 12),
      State (layers Mock.three_layers) (loss Mock.three_layers)
        (<[2:=optimize (backward (heap Mock.three_layers 2) (Mock.Num 4)).1
                (Mock.Num 0) (Mock.Num 4) (Mock.Num 1)]>
           (<[2:=(backward (heap Mock.three_layers 2) (Mock.Num 4)).1]>
              (heap Mock.three_layers)))
        (log Mock.three_layers
         ++ [EGetType 2 "Linear";
             EBackward 2 (Mock.Num 4)
               (backward (heap Mock.three_layers 2) (Mock.Num 4)).2;
             EOptimize 2 (Mock.Num 0) (Mock.Num 4) (Mock.Num 1)]))).
Proof.
  pose proof (optimize_iff_linear (Mock.Num 1) (Mock.Num 5) (Mock.Num 1)
                "BinaryCrossEntropy" BinaryCrossEntropy Mock.three_layers
                mock_linear_contract) as H.
  assert (Hne : layers Mock.three_layers <> []) by discriminate.
  assert (Hty : type (heap Mock.three_layers 1) <> "Linear") by discriminate.
  destruct (H Hne eq_refl) as (Hpass & Hplain & Hlinear).
  split; [exact mock_linear_contract|].
  split; [exact Hne|]. split; [reflexivity|]. split; [exact Hpass|].
  split.
  - split; [reflexivity|]. split; [exact Hty|].
    apply (Hplain 1 1 (Mock.Num 4) Mock.three_layers eq_refl Hty).
  - split; [reflexivity|]. split; [reflexivity|]. split; [reflexivity|].
    apply (Hlinear 2 2 (Mock.Num 4) Mock.three_layers (Mock.Num 12)
             (Mock.Num 0) (Mock.Num 4)); reflexivity.
Defined.

Lemma run_epoch_deterministic_witness :
  layers Mock.three_layers = layers Mock.three_layers_later /\
  (forall a, a ∈ layers Mock.three_layers ->
     heap Mock.three_layers a = heap Mock.three_layers_later a) /\
  (_run_epoch (Mock.Num 1) (Mock.Num 5) (Mock.Num 1) "MeanSquaredError"
     Mock.three_layers).1 =
  (_run_epoch (Mock.Num 1) (Mock.Num 5) (Mock.Num 1) "MeanSquaredError"
     Mock.three_layers_later).1.
Proof.
  split; [reflexivity|]. split; [intros a _; reflexivity|].
  apply (run_epoch_deterministic (Mock.Num 1) (Mock.Num 5) (Mock.Num 1)
           "MeanSquaredError" Mock.three_layers Mock.three_layers_later).
  - reflexivity.
  - intros a _. reflexivity.
Defined.

Lemma train_no_epochs_witness :
  (-3 <= 0)%Z /\
  train (Mock.Num 1) (Mock.Num 5) (Mock.Num 1) (-3) "Huber" true
    Mock.three_layers = (Ok tt, Mock.three_layers).
Proof.
  split; [discriminate|].
  apply (train_no_epochs (Mock.Num 1) (Mock.Num 5) (Mock.Num 1) (-3) "Huber"
           true Mock.three_layers).
  discriminate.
Defined.

(** * Further properties of the code *)

Section Further.
Context {Val obj lossobj : Type}.
Context `{!Layer Val obj, !Loss Val lossobj, !Iterable Val}.
Local Open Scope model_scope.

Abbreviation M := (@M Val obj).
Abbreviation state := (@state Val obj).
Abbreviation event := (@event Val).

Implicit Types (s : state) (X Y g lr : Val) (a b : addr) (ls : list addr).

(** ** Building a model *)

Lemma add_all_run ls : forall s,
  add_all ls s = (Ok tt, State (layers s ++ ls) (loss s) (heap s) (log s)).
Proof.
  induction ls as [|a ls IH]; intros s; simpl.
  - destruct s. unfold ret. simpl. rewrite app_nil_r. reflexivity.
  - unfold bind, add. rewrite IH. simpl. rewrite <- app_assoc. reflexivity.
Qed.

(** ** The forward loop leaves the rest of the heap alone *)

Lemma forward_loop_frame idx : forall X fv s r s',
  forward_loop idx X fv s = (r, s') ->
  layers s' = layers s /\
  forall b, b ∉ layers s -> heap s' b = heap s b.
Proof.
  induction idx as [|[i c] idx IH]; intros X fv s r s' Hrun; simpl in Hrun.
  - inversion Hrun; subst. split; reflexivity.
  - unfold bind at 1 in Hrun. unfold layer_at in Hrun.
    destruct (layers s !! i) as [a|] eqn:Hi;
      [|inversion Hrun; subst; split; reflexivity].
    rewrite (bind_ok _ _ _ _ _ (call_forward_run _ _ _)) in Hrun.
    destruct (IH _ _ _ _ _ Hrun) as [Hls Hfr]. simpl in Hls, Hfr.
    split; [exact Hls|]. intros b Hb. rewrite (Hfr b Hb).
    apply fn_lookup_insert_ne. intros ->.
    apply Hb. eapply list_elem_of_lookup_2, Hi.
Qed.

(** X1. Adding the layers [L1..Ln] to a new model gives a model that holds
    exactly these layers in that order, with an empty loss history and the
    objects as they were; a [predict] on it calls [forward] on [L1..Ln] in
    that order and nothing else. *)
Theorem model_built_in_order (h : addr -> obj) ls X :
  add_all ls (@init Val obj h) = (Ok tt, State ls [] h []) /\
  exists fev out,
    log (predict X (State ls [] h [])).2 = fev /\
    forward_trace ls X fev out.
Proof.
  split.
  - rewrite add_all_run. reflexivity.
  - rewrite predict_state.
    destruct (forward_loop_run ls [] X None (State ls [] h []) eq_refl)
      as (out & fev & s' & Hrun & _ & _ & Hlog & Htr).
    exists fev, out. split; [|exact Htr].
    unfold enumerate. simpl in *. rewrite Hrun. exact Hlog.
Qed.

(** X2. Whatever the model, [predict] leaves [self.layers] and [self.loss]
    as they are, its only calls are one [forward] per layer in insertion
    order, it does not touch an object the model does not hold, and what
    every [forward] preserves of a layer (its parameters) it preserves.  On
    a non-empty model the value returned is the output of the last
    [forward]. *)
Theorem predict_effects X s :
  exists fev out,
    layers (predict X s).2 = layers s /\
    loss (predict X s).2 = loss s /\
    log (predict X s).2 = log s ++ fev /\
    forward_trace (layers s) X fev out /\
    (layers s <> [] -> (predict X s).1 = Ok out) /\
    (forall b, b ∉ layers s -> heap (predict X s).2 b = heap s b) /\
    (forall (P : Type) (params : obj -> P),
       (forall o x, params (forward o x).1 = params o) ->
       forall a, params (heap (predict X s).2 a) = params (heap s a)).
Proof.
  destruct (forward_loop_run (layers s) [] X None s eq_refl)
    as (out & fev & s' & Hrun & Hls & Hloss & Hlog & Htr).
  change (enumerate_from (length []) (layers s))
    with (enumerate (layers s)) in Hrun.
  assert (Hst : (predict X s).2 = s') by (rewrite predict_state, Hrun; reflexivity).
  exists fev, out. rewrite Hst.
  split; [exact Hls|]. split; [exact Hloss|]. split; [exact Hlog|].
  split; [exact Htr|]. split; [|split].
  - intros Hne. rewrite predict_unfold, (bind_ok _ _ _ _ _ Hrun).
    destruct (layers s); [contradiction|reflexivity].
  - apply (forward_loop_frame _ _ _ _ _ _ Hrun).
  - intros P params Hp a.
    apply (forward_loop_preserves params Hp _ _ _ _ _ _ Hrun).
Qed.

(** ** The backward loop without the contract *)

Lemma is_triple_dec (r : Val) : is_triple r \/ ~ is_triple r.
Proof.
  unfold is_triple.
  destruct (iter r) as [[|g [|dW [|dB [|x items]]]]|];
    try (right; intros (? & ? & ? & Heq); discriminate Heq).
  left. eauto.
Qed.

Lemma unpack3_bad (r : Val) s :
  ~ is_triple r -> @unpack3 Val obj _ r s = (Raise UnpackError, s).
Proof.
  unfold is_triple, unpack3. intros Hn.
  destruct (iter r) as [[|g [|dW [|dB [|x items]]]]|]; try reflexivity.
  exfalso. apply Hn. eauto.
Qed.

(** One iteration on a ['Linear'] layer whose [backward] does not return a
    triple: the unpacking raises after the [backward] call and before any
    [optimize]. *)
Lemma backward_body_bad i a g lr s :
  layers s !! i = Some a ->
  type (heap s a) = "Linear" ->
  ~ is_triple (backward (heap s a) g).2 ->
  backward_body i g lr s =
    (Raise UnpackError,
     State (layers s) (loss s) (<[a:=(backward (heap s a) g).1]> (heap s))
       (log s ++ [EGetType a "Linear";
                  EBackward a g (backward (heap s a) g).2])).
Proof.
  intros Hi Hty Hbad. unfold backward_body.
  subscript Hi.
  rewrite (bind_ok _ _ _ _ _ (get_type_run _ _)).
  rewrite Hty, String.eqb_refl. cbn [negb].
  subscript Hi.
  rewrite (bind_ok _ _ _ _ _ (call_backward_run _ _ _)).
  simpl heap.
  rewrite (bind_raise _ _ _ _ _ (unpack3_bad _ _ Hbad)).
  simpl. rewrite <- app_assoc. reflexivity.
Qed.

(** Whatever the layers return, the loop over the reversed indices of a
    suffix of [self.layers] ends normally or with the exception of a failed
    unpacking; it changes neither [self.layers] nor [self.loss], prints
    nothing, calls no loss unit, and touches only objects of the model. *)
Lemma backward_loop_cases lr ls : forall pre g s,
  layers s = pre ++ ls ->
  exists r bev s',
    backward_loop (rev (enumerate_from (length pre) ls)) g lr s = (r, s') /\
    ((exists g', r = Ok g') \/ r = Raise UnpackError) /\
    layers s' = layers s /\ loss s' = loss s /\
    log s' = log s ++ bev /\
    printed bev = [] /\ loss_values bev = [] /\
    (forall b, b ∉ layers s -> heap s' b = heap s b).
Proof.
  induction ls as [|a ls IH]; intros pre g s Hl; simpl.
  - exists (Ok g), [], s. rewrite app_nil_r. repeat split. left. eauto.
  - destruct (IH (pre ++ [a]) g s)
      as (r1 & bev & s1 & Hrun & Hr1 & Hls & Hloss & Hlog & Hp & Hv & Hfr).
    { rewrite Hl, <- app_assoc. reflexivity. }
    rewrite length_app, Nat.add_1_r in Hrun.
    rewrite backward_loop_app.
    destruct Hr1 as [[g1 ->]| ->].
    2:{ rewrite (bind_raise _ _ _ _ _ Hrun).
        exists (Raise UnpackError), bev, s1. repeat split; try assumption.
        right. reflexivity. }
    rewrite (bind_ok _ _ _ _ _ Hrun). simpl.
    assert (Hi : layers s1 !! length pre = Some a).
    { rewrite Hls, Hl. apply list_lookup_middle. reflexivity. }
    assert (Ha : forall b, b ∉ layers s -> a <> b).
    { intros b Hb ->. apply Hb. rewrite <- Hls.
      eapply list_elem_of_lookup_2, Hi. }
    destruct (String.eqb_spec (type (heap s1 a)) "Linear") as [Hty|Hty].
    + destruct (is_triple_dec (backward (heap s1 a) g1).2)
        as [(g' & dW & dB & Hit)|Hbad].
      * rewrite (bind_ok _ _ _ _ _
                   (backward_body_linear _ _ _ lr _ _ _ _ Hi Hty Hit)).
        eexists (Ok g'), _, _. split; [reflexivity|]. simpl.
        split; [left; eauto|]. split; [exact Hls|]. split; [exact Hloss|].
        split; [rewrite Hlog, <- app_assoc; reflexivity|].
        rewrite printed_app, loss_values_app, Hp, Hv.
        split; [reflexivity|]. split; [reflexivity|].
        intros b Hb. rewrite !fn_lookup_insert_ne by (apply Ha, Hb).
        apply Hfr, Hb.
      * rewrite (bind_raise _ _ _ _ _
                   (backward_body_bad _ _ _ lr _ Hi Hty Hbad)).
        eexists (Raise UnpackError), _, _. split; [reflexivity|]. simpl.
        split; [right; reflexivity|]. split; [exact Hls|].
        split; [exact Hloss|].
        split; [rewrite Hlog, <- app_assoc; reflexivity|].
        rewrite printed_app, loss_values_app, Hp, Hv.
        split; [reflexivity|]. split; [reflexivity|].
        intros b Hb. rewrite fn_lookup_insert_ne by (apply Ha, Hb).
        apply Hfr, Hb.
    + rewrite (bind_ok _ _ _ _ _ (backward_body_plain _ _ _ lr _ Hi Hty)).
      eexists (Ok _), _, _. split; [reflexivity|]. simpl.
      split; [left; eauto|]. split; [exact Hls|]. split; [exact Hloss|].
      split; [rewrite Hlog, <- app_assoc; reflexivity|].
      rewrite printed_app, loss_values_app, Hp, Hv.
      split; [reflexivity|]. split; [reflexivity|].
      intros b Hb. rewrite fn_lookup_insert_ne by (apply Ha, Hb).
      apply Hfr, Hb.
Qed.

(** ** Every outcome of an epoch *)

Lemma supported_dec lf : supported lf \/ ~ supported lf.
Proof.
  destruct (String.eqb_spec lf "BinaryCrossEntropy") as [->|Hn1];
    [left; left; reflexivity|].
  destruct (String.eqb_spec lf "MeanSquaredError") as [->|Hn2];
    [left; right; reflexivity|].
  right. intros [?|?]; contradiction.
Qed.

Lemma run_epoch_empty X Y lr lf s :
  supported lf -> layers s = [] ->
  _run_epoch X Y lr lf s = (Raise (UnboundLocalError "forward"), s).
Proof.
  intros Hsup Hnil. rewrite run_epoch_unfold, Hnil.
  destruct Hsup as [-> | ->]; reflexivity.
Qed.

(** The epoch routine from any state: the three ways it can end, and what
    holds however it ends. *)
Lemma run_epoch_cases X Y lr lf s :
  exists r s' evs errors,
    _run_epoch X Y lr lf s = (r, s') /\
    layers s' = layers s /\
    log s' = log s ++ evs /\
    printed evs = [] /\ loss_values evs = errors /\
    loss s' = loss s ++ errors /\
    (forall b, b ∉ layers s -> heap s' b = heap s b) /\
    ((~ supported lf /\ errors = [] /\
      r = Raise (ValueError (lf ++ " is not supported."))) \/
     (supported lf /\ layers s = [] /\ errors = [] /\ s' = s /\
      r = Raise (UnboundLocalError "forward")) \/
     (supported lf /\ layers s <> [] /\
      exists error out k,
        errors = [error] /\ selects lf k /\
        (predict X s).1 = Ok out /\
        error = (loss_forward (loss_new k out Y)).2 /\
        (r = Ok error \/ r = Raise UnpackError))).
Proof.
  destruct (forward_loop_run (layers s) [] X None s eq_refl)
    as (out & fev & s1 & Hfwd & Hls1 & Hloss1 & Hlog1 & Hftr).
  change (enumerate_from (length []) (layers s))
    with (enumerate (layers s)) in Hfwd.
  destruct (forward_loop_frame _ _ _ _ _ _ Hfwd) as [_ Hfr1].
  destruct (forward_trace_quiet _ _ _ _ Hftr) as [Hp1 Hv1].
  destruct (supported_dec lf) as [Hsup|Hns].
  2:{ exists (Raise (ValueError (lf ++ " is not supported."))), s1, fev, [].
      split.
      { rewrite run_epoch_unsupported by exact Hns.
        rewrite predict_state, Hfwd. reflexivity. }
      rewrite app_nil_r.
      split; [exact Hls1|]. split; [exact Hlog1|]. split; [exact Hp1|].
      split; [exact Hv1|]. split; [exact Hloss1|]. split; [exact Hfr1|].
      left. split; [exact Hns|]. split; reflexivity. }
  assert (Hcase : layers s = [] \/ layers s <> [])
    by (destruct (layers s); [left; reflexivity|right; discriminate]).
  destruct Hcase as [Hlay|Hne].
  { exists (Raise (UnboundLocalError "forward")), s, [], [].
    split; [apply run_epoch_empty; assumption|].
    rewrite !app_nil_r. do 6 (split; [first [reflexivity|assumption]|]).
    right. left. split; [exact Hsup|]. split; [exact Hlay|]. repeat split. }
  assert (Hfwd' : forward_loop (enumerate (layers s)) X None s =
                  (Ok (out, Some out), s1)).
  { rewrite Hfwd. destruct (layers s); [contradiction|reflexivity]. }
  clear Hfwd. destruct (supported_selects lf Hsup) as [k Hsel].
  rewrite run_epoch_unfold, (bind_ok _ _ _ _ _ Hfwd'). cbn [snd].
  rewrite (bind_ok _ _ _ _ _ (loss_dispatch_selects _ _ _ _ _ Hsel)).
  destruct (loss_forward (loss_new k out Y)) as [unit1 error] eqn:Hlf.
  destruct (loss_backward unit1) as [unit2 gradient] eqn:Hlb.
  rewrite (bind_ok _ _ _ _ _ (call_loss_forward_run _ _ _ _ Hlf)).
  rewrite (bind_ok _ _ _ _ _ (call_loss_backward_run _ _ _ _ Hlb)).
  rewrite (bind_ok _ _ _ _ _ (append_loss_run _ _)).
  rewrite (bind_ok get _ _ _ _ eq_refl).
  cbn [layers loss heap log].
  match goal with
  | |- context [bind (backward_loop _ _ _) _ ?st] =>
      destruct (backward_loop_cases lr (layers s1) [] gradient st eq_refl)
        as (r & bev & s' & Hbwd & Hr & Hls' & Hloss' & Hlog' & Hp & Hv & Hfr)
  end.
  change (enumerate_from (length []) (layers s1))
    with (enumerate (layers s1)) in Hbwd.
  cbn [layers loss heap log] in Hls', Hloss', Hlog', Hfr.
  assert (Hpred : (predict X s).1 = Ok out).
  { rewrite predict_unfold, (bind_ok _ _ _ _ _ Hfwd'). reflexivity. }
  assert (Hshape :
    forall r0 : result Val,
      exists evs,
        log s' = log s ++ evs /\ printed evs = [] /\
        loss_values evs = [error] /\
        layers s' = layers s /\ loss s' = loss s ++ [error] /\
        (forall b, b ∉ layers s -> heap s' b = heap s b)).
  { intros _.
    exists (fev ++ ELossNew k out Y :: ELossForward error
               :: ELossBackward gradient :: bev).
    split; [rewrite Hlog', Hlog1, <- !app_assoc; reflexivity|].
    rewrite printed_app, loss_values_app, Hp1, Hv1. simpl. rewrite Hp, Hv.
    split; [reflexivity|]. split; [reflexivity|].
    split; [congruence|]. split; [congruence|].
    intros b Hb. rewrite Hfr by (rewrite Hls1; exact Hb). apply Hfr1, Hb. }
  destruct (Hshape r) as (evs & He1 & He2 & He3 & He4 & He5 & He6).
  destruct Hr as [[g' ->]| ->].
  - rewrite (bind_ok _ _ _ _ _ Hbwd). unfold ret.
    exists (Ok error), s', evs, [error].
    do 6 (split; [first [reflexivity|assumption]|]).
    split; [assumption|].
    right. right. split; [exact Hsup|]. split; [exact Hne|].
    exists error, out, k. rewrite Hlf.
    do 4 (split; [first [reflexivity|assumption]|]).
    left. reflexivity.
  - rewrite (bind_raise _ _ _ _ _ Hbwd).
    exists (Raise UnpackError), s', evs, [error].
    do 6 (split; [first [reflexivity|assumption]|]).
    split; [assumption|].
    right. right. split; [exact Hsup|]. split; [exact Hne|].
    exists error, out, k. rewrite Hlf.
    do 4 (split; [first [reflexivity|assumption]|]).
    right. reflexivity.
Qed.

(** ** Every outcome of [train] *)

Lemma train_loop_cases X Y lr lf verbose : forall epochs s,
  exists r s' evs errors,
    train_loop epochs X Y lr lf verbose s = (r, s') /\
    layers s' = layers s /\
    log s' = log s ++ evs /\
    loss s' = loss s ++ errors /\
    loss_values evs = errors /\
    length errors <= length epochs /\
    (verbose = false -> printed evs = []) /\
    (forall b, b ∉ layers s -> heap s' b = heap s b) /\
    ((r = Ok tt /\ length errors = length epochs) \/
     (~ supported lf /\ errors = [] /\
      r = Raise (ValueError (lf ++ " is not supported."))) \/
     (supported lf /\ layers s = [] /\ s' = s /\
      r = Raise (UnboundLocalError "forward")) \/
     (supported lf /\ layers s <> [] /\ errors <> [] /\
      r = Raise UnpackError)).
Proof.
  induction epochs as [|epoch epochs IH]; intros s; simpl.
  - exists (Ok tt), s, [], []. rewrite !app_nil_r.
    do 7 (split; [first [reflexivity|intros; reflexivity|lia]|]).
    split; [reflexivity|]. left. split; reflexivity.
  - destruct (run_epoch_cases X Y lr lf s)
      as (r1 & s1 & evs1 & errs1 & Hrun & Hls1 & Hlog1 & Hp1 & Hv1 & Hloss1
          & Hfr1 & Hcase).
    destruct Hcase as [(Hns & -> & ->)|[(Hsup & Hnil & -> & -> & ->)
                      |(Hsup & Hne & error & out & k & -> & _ & _ & _ & Hr)]].
    + rewrite (bind_raise _ _ _ _ _ Hrun).
      exists (Raise (ValueError (lf ++ " is not supported."))), s1, evs1, [].
      do 5 (split; [first [reflexivity|assumption]|]). split; [simpl; lia|].
      split; [intros _; exact Hp1|]. split; [exact Hfr1|].
      right. left. repeat split. exact Hns.
    + rewrite (bind_raise _ _ _ _ _ Hrun).
      exists (Raise (UnboundLocalError "forward")), s, evs1, [].
      do 5 (split; [first [reflexivity|assumption]|]). split; [simpl; lia|].
      split; [intros _; exact Hp1|]. split; [exact Hfr1|].
      right. right. left. repeat split; assumption.
    + destruct Hr as [-> | ->].
      2:{ rewrite (bind_raise _ _ _ _ _ Hrun).
          exists (Raise UnpackError), s1, evs1, [error].
          do 5 (split; [first [reflexivity|assumption]|]). split; [simpl; lia|].
          split; [intros _; exact Hp1|]. split; [exact Hfr1|].
          right. right. right. repeat split; try assumption. discriminate. }
      rewrite (bind_ok _ _ _ _ _ Hrun).
      rewrite (bind_ok _ _ _ _ _ (report_run _ _ _ _)).
      set (rep := if verbose && (epoch mod 50 =? 0)%Z
                  then [EPrint epoch error] else []).
      assert (Hrep : loss_values rep = [] /\ (verbose = false -> printed rep = [])).
      { unfold rep. destruct verbose, (epoch mod 50 =? 0)%Z; simpl; split;
          try reflexivity; discriminate. }
      destruct Hrep as [Hrv Hrp].
      destruct (IH (State (layers s1) (loss s1) (heap s1) (log s1 ++ rep)))
        as (r & s' & evs & errs & Hloop & Hls & Hlog & Hloss & Hv & Hlen
            & Hp & Hfr & Hcase).
      cbn [layers loss heap log] in Hls, Hlog, Hloss, Hfr, Hcase.
      exists r, s', (evs1 ++ rep ++ evs), (error :: errs).
      split; [exact Hloop|]. split; [congruence|].
      split; [rewrite Hlog, Hlog1, <- !app_assoc; reflexivity|].
      split; [rewrite Hloss, Hloss1, <- app_assoc; reflexivity|].
      split; [rewrite !loss_values_app, Hv1, Hrv, Hv; reflexivity|].
      split; [simpl; lia|].
      split; [intros Hq; rewrite !printed_app, Hp1, (Hrp Hq), (Hp Hq);
              reflexivity|].
      split; [intros b Hb; rewrite Hfr by (rewrite Hls1; exact Hb);
              apply Hfr1, Hb|].
      destruct Hcase as [(-> & Hlen')|[(Hns & _)|[(_ & Hnil & _)
                        |(_ & _ & _ & ->)]]].
      * left. split; [reflexivity|simpl; lia].
      * contradiction.
      * rewrite Hls1 in Hnil. contradiction.
      * right. right. right. repeat split; try assumption. discriminate.
Qed.

Lemma enumerate_from_app {A : Type} (l1 l2 : list A) : forall k,
  enumerate_from k (l1 ++ l2) =
    enumerate_from k l1 ++ enumerate_from (k + length l1) l2.
Proof.
  induction l1 as [|x l1 IH]; intros k; simpl.
  - rewrite Nat.add_0_r. reflexivity.
  - rewrite IH. do 3 f_equal. lia.
Qed.

(** X3. Training a model that has no layers, with a supported selector and
    at least one epoch: the first epoch reads the unbound local [forward]
    when it builds the loss unit, so [_run_epoch] and [train] raise
    [UnboundLocalError] and nothing has been called, appended or printed. *)
Theorem train_empty_model X Y lr epochs lf verbose s :
  supported lf -> layers s = [] -> (0 < epochs)%Z ->
  _run_epoch X Y lr lf s = (Raise (UnboundLocalError "forward"), s) /\
  train X Y lr epochs lf verbose s = (Raise (UnboundLocalError "forward"), s).
Proof.
  intros Hsup Hnil Hpos.
  pose proof (run_epoch_empty X Y lr lf s Hsup Hnil) as Hrun.
  split; [exact Hrun|].
  destruct (range_positive epochs Hpos) as [rest Hr].
  unfold train. rewrite Hr. simpl.
  apply (bind_raise _ _ _ _ _ Hrun).
Qed.

(** X4. The loss is recorded before backpropagation starts.  On a non-empty
    model with a supported selector, whatever the layers return, an epoch
    either returns its error or raises at a failed unpacking in the backward
    pass, and in both cases exactly that epoch's [loss.forward()] value has
    been appended to [self.loss]. *)
Theorem loss_recorded_before_backward X Y lr lf k s :
  layers s <> [] -> selects lf k ->
  exists r s' error out,
    _run_epoch X Y lr lf s = (r, s') /\
    (r = Ok error \/ r = Raise UnpackError) /\
    loss s' = loss s ++ [error] /\
    (predict X s).1 = Ok out /\
    error = (loss_forward (loss_new k out Y)).2.
Proof.
  intros Hne Hsel.
  destruct (run_epoch_cases X Y lr lf s)
    as (r & s' & evs & errs & Hrun & _ & _ & _ & _ & Hloss & _ & Hcase).
  destruct Hcase as [(Hns & _)|[(_ & Hnil & _)
                    |(_ & _ & error & out & k' & -> & Hsel' & Hp & He & Hr)]].
  - exfalso. apply Hns. eapply selects_supported, Hsel.
  - contradiction.
  - assert (k' = k) as ->.
    { destruct k, k'; simpl in Hsel, Hsel'; subst; try reflexivity;
        discriminate. }
    exists r, s', error, out. repeat split; assumption.
Qed.

(** X5. When the last layer announces ['Linear'] and its [backward] does
    not return three items, the epoch raises at the unpacking of the very
    first visit: after the forward pass the only calls are those on the loss
    unit, the read of the type and that one [backward]; the loss has been
    appended and no [optimize] has run. *)
Theorem unpack_failure_at_last_layer X Y lr lf k pre a out s :
  layers s = pre ++ [a] -> selects lf k ->
  (predict X s).1 = Ok out ->
  type (heap (predict X s).2 a) = "Linear" ->
  ~ is_triple
      (backward (heap (predict X s).2 a)
         (loss_backward (loss_forward (loss_new k out Y)).1).2).2 ->
  exists s',
    _run_epoch X Y lr lf s = (Raise UnpackError, s') /\
    loss s' = loss s ++ [(loss_forward (loss_new k out Y)).2] /\
    log s' =
      log (predict X s).2 ++
      [ELossNew k out Y;
       ELossForward (loss_forward (loss_new k out Y)).2;
       ELossBackward (loss_backward (loss_forward (loss_new k out Y)).1).2;
       EGetType a "Linear";
       EBackward a (loss_backward (loss_forward (loss_new k out Y)).1).2
         (backward (heap (predict X s).2 a)
            (loss_backward (loss_forward (loss_new k out Y)).1).2).2].
Proof.
  intros Hl Hsel Hout.
  destruct (forward_loop_run (layers s) [] X None s eq_refl)
    as (out' & fev & s1 & Hfwd & Hls1 & Hloss1 & _ & _).
  change (enumerate_from (length []) (layers s))
    with (enumerate (layers s)) in Hfwd.
  assert (Hfwd' : forward_loop (enumerate (layers s)) X None s =
                  (Ok (out', Some out'), s1)).
  { rewrite Hfwd, Hl. destruct pre; reflexivity. }
  clear Hfwd.
  rewrite predict_unfold, (bind_ok _ _ _ _ _ Hfwd') in Hout.
  simpl in Hout. inversion Hout; subst out'. clear Hout.
  rewrite predict_state, Hfwd'. cbn [snd]. intros Hty Hbad.
  rewrite run_epoch_unfold, (bind_ok _ _ _ _ _ Hfwd'). cbn [snd].
  rewrite (bind_ok _ _ _ _ _ (loss_dispatch_selects _ _ _ _ _ Hsel)).
  destruct (loss_forward (loss_new k out Y)) as [unit1 error] eqn:Hlf.
  cbn [fst snd] in *.
  destruct (loss_backward unit1) as [unit2 gradient] eqn:Hlb.
  cbn [fst snd] in *.
  rewrite (bind_ok _ _ _ _ _ (call_loss_forward_run _ _ _ _ Hlf)).
  rewrite (bind_ok _ _ _ _ _ (call_loss_backward_run _ _ _ _ Hlb)).
  rewrite (bind_ok _ _ _ _ _ (append_loss_run _ _)).
  rewrite (bind_ok get _ _ _ _ eq_refl).
  cbn [layers loss heap log].
  rewrite Hls1, Hl. unfold enumerate.
  rewrite enumerate_from_app, rev_app_distr. simpl.
  match goal with
  | |- context [bind (bind (backward_body ?i ?g ?l) _) _ ?st] =>
      assert (Hbody := backward_body_bad i a g l st)
  end.
  cbn [layers loss heap log] in Hbody.
  specialize (Hbody (list_lookup_middle _ _ _ _ eq_refl) Hty Hbad).
  rewrite (bind_raise _ _ _ _ _ (bind_raise _ _ _ _ _ Hbody)).
  eexists. split; [reflexivity|]. simpl.
  split; [rewrite Hloss1; reflexivity|].
  rewrite <- !app_assoc. reflexivity.
Qed.

(** X6. Which way [train] ends when the calls it makes on the layers and
    on the loss unit return.  With no epoch to run it returns.  With at
    least one epoch: an unsupported selector gives the [ValueError] of the
    [raise] statement; a supported selector on a model without layers gives
    the [UnboundLocalError] on [forward]; a supported selector on a model
    with layers either returns or stops at a failed unpacking.  In no case
    is a subscript [self.layers[i]] out of range. *)
Theorem train_outcomes X Y lr epochs lf verbose s :
  ((epochs <= 0)%Z ->
   (train X Y lr epochs lf verbose s).1 = Ok tt) /\
  ((0 < epochs)%Z -> ~ supported lf ->
   (train X Y lr epochs lf verbose s).1 =
     Raise (ValueError (lf ++ " is not supported."))) /\
  ((0 < epochs)%Z -> supported lf -> layers s = [] ->
   (train X Y lr epochs lf verbose s).1 =
     Raise (UnboundLocalError "forward")) /\
  ((0 < epochs)%Z -> supported lf -> layers s <> [] ->
   (train X Y lr epochs lf verbose s).1 = Ok tt \/
   (train X Y lr epochs lf verbose s).1 = Raise UnpackError) /\
  (train X Y lr epochs lf verbose s).1 <> Raise IndexError.
Proof.
  split; [|split; [|split; [|split]]].
  - intros Hle. unfold train, range.
    replace (Z.to_nat epochs) with 0 by lia. reflexivity.
  - intros Hpos Hns. destruct (range_positive epochs Hpos) as [rest Hr].
    unfold train. rewrite Hr. simpl.
    rewrite (bind_raise _ _ _ _ _ (run_epoch_unsupported X Y lr lf s Hns)).
    reflexivity.
  - intros Hpos Hsup Hnil. destruct (range_positive epochs Hpos) as [rest Hr].
    unfold train. rewrite Hr. simpl.
    rewrite (bind_raise _ _ _ _ _ (run_epoch_empty X Y lr lf s Hsup Hnil)).
    reflexivity.
  - intros Hpos Hsup Hne. unfold train.
    destruct (train_loop_cases X Y lr lf verbose (range epochs) s)
      as (r & s' & evs & errs & Hrun & _ & _ & _ & _ & _ & _ & _ & Hcase).
    rewrite Hrun. cbn [fst].
    destruct Hcase as [(-> & _)|[(Hns & _)|[(_ & Hnil & _)|(_ & _ & _ & ->)]]].
    + left. reflexivity.
    + contradiction.
    + contradiction.
    + right. reflexivity.
  - unfold train.
    destruct (train_loop_cases X Y lr lf verbose (range epochs) s)
      as (r & s' & evs & errs & Hrun & _ & _ & _ & _ & _ & _ & _ & Hcase).
    rewrite Hrun. cbn [fst].
    destruct Hcase as [(-> & _)|[(_ & _ & ->)|[(_ & _ & _ & ->)
                      |(_ & _ & _ & ->)]]]; discriminate.
Qed.

(** X7. What [train] keeps, however it ends.  [self.layers] is unchanged;
    the old entries of [self.loss] stay in place and the new ones are the
    values the [loss.forward()] calls of this [train] returned, at most one
    per epoch asked for and exactly one per epoch when [train] returns; an
    object that the model does not hold is not touched. *)
Theorem train_invariants X Y lr epochs lf verbose s :
  exists evs errors,
    layers (train X Y lr epochs lf verbose s).2 = layers s /\
    log (train X Y lr epochs lf verbose s).2 = log s ++ evs /\
    loss (train X Y lr epochs lf verbose s).2 = loss s ++ errors /\
    errors = loss_values evs /\
    length errors <= Z.to_nat epochs /\
    ((train X Y lr epochs lf verbose s).1 = Ok tt ->
     length errors = Z.to_nat epochs) /\
    (forall b, b ∉ layers s ->
       heap (train X Y lr epochs lf verbose s).2 b = heap s b).
Proof.
  unfold train.
  destruct (train_loop_cases X Y lr lf verbose (range epochs) s)
    as (r & s' & evs & errs & Hrun & Hls & Hlog & Hloss & Hv & Hlen & _
        & Hfr & Hcase).
  rewrite Hrun. cbn [fst snd]. rewrite length_range in *.
  exists evs, errs. repeat split; try assumption; [symmetry; exact Hv|].
  intros ->.
  destruct Hcase as [(_ & Hlen')|[(_ & _ & Hr)|[(_ & _ & _ & Hr)
                    |(_ & _ & _ & Hr)]]]; try discriminate Hr.
  exact Hlen'.
Qed.

(** X8. Nothing is printed by [predict], by the epoch routine, or by a
    [train] call that is not verbose, however they end. *)
Theorem silent_unless_verbose X Y lr epochs lf s :
  (exists evs, log (predict X s).2 = log s ++ evs /\ printed evs = []) /\
  (exists evs,
     log (_run_epoch X Y lr lf s).2 = log s ++ evs /\ printed evs = []) /\
  (exists evs,
     log (train X Y lr epochs lf false s).2 = log s ++ evs /\
     printed evs = []).
Proof.
  split; [|split].
  - destruct (forward_loop_run (layers s) [] X None s eq_refl)
      as (out & fev & s1 & Hfwd & _ & _ & Hlog & Htr).
    change (enumerate_from (length []) (layers s))
      with (enumerate (layers s)) in Hfwd.
    exists fev. rewrite predict_state, Hfwd.
    split; [exact Hlog|apply (forward_trace_quiet _ _ _ _ Htr)].
  - destruct (run_epoch_cases X Y lr lf s)
      as (r & s' & evs & errs & Hrun & _ & Hlog & Hp & _).
    exists evs. rewrite Hrun. split; assumption.
  - unfold train.
    destruct (train_loop_cases X Y lr lf false (range epochs) s)
      as (r & s' & evs & errs & Hrun & _ & Hlog & _ & _ & _ & Hp & _).
    exists evs. rewrite Hrun. split; [exact Hlog|apply Hp; reflexivity].
Qed.

(** ** Verbosity and resuming *)

Lemma calls_app (evs1 evs2 : list event) :
  calls (evs1 ++ evs2) = calls evs1 ++ calls evs2.
Proof. apply List.filter_app. Qed.

(** The verbose loop and the silent loop, run from states that agree on the
    model, on the loss history and on the calls logged so far, end the same
    way and stay in agreement. *)
Lemma train_loop_verbose_sim L X Y lr lf : forall epochs s1 s2,
  agree L s1 s2 -> loss s1 = loss s2 -> calls (log s1) = calls (log s2) ->
  (train_loop epochs X Y lr lf true s1).1 =
    (train_loop epochs X Y lr lf false s2).1 /\
  agree L (train_loop epochs X Y lr lf true s1).2
          (train_loop epochs X Y lr lf false s2).2 /\
  loss (train_loop epochs X Y lr lf true s1).2 =
    loss (train_loop epochs X Y lr lf false s2).2 /\
  calls (log (train_loop epochs X Y lr lf true s1).2) =
    calls (log (train_loop epochs X Y lr lf false s2).2).
Proof.
  induction epochs as [|epoch epochs IH]; intros s1 s2 Hag Hloss Hlog; simpl.
  - repeat split; try assumption; apply Hag.
  - destruct (deterministic_run_epoch L X Y lr lf s1 s2 Hag)
      as (Hr & Hag' & evs & errs & Hl1 & Hl2 & Hh1 & Hh2).
    destruct (_run_epoch X Y lr lf s1) as [r1 t1] eqn:Hrun1.
    destruct (_run_epoch X Y lr lf s2) as [r2 t2] eqn:Hrun2.
    simpl in Hr, Hag', Hl1, Hl2, Hh1, Hh2. subst r2.
    destruct r1 as [error|e].
    + rewrite (bind_ok _ _ _ _ _ Hrun1), (bind_ok _ _ _ _ _ Hrun2).
      pose proof (report_run true epoch error t1) as Ht.
      pose proof (report_run false epoch error t2) as Hf.
      cbn [andb] in Ht, Hf. cbv iota in Ht, Hf.
      rewrite (bind_ok _ _ _ _ _ Ht), (bind_ok _ _ _ _ _ Hf).
      apply IH; simpl.
      * destruct Hag' as (H1 & H2 & Hh). repeat split; assumption.
      * congruence.
      * rewrite app_nil_r, calls_app, Hl1, Hl2, !calls_app, Hlog.
        destruct (epoch mod 50 =? 0)%Z; simpl; rewrite app_nil_r; reflexivity.
    + rewrite (bind_raise _ _ _ _ _ Hrun1), (bind_raise _ _ _ _ _ Hrun2).
      simpl. split; [reflexivity|]. split; [exact Hag'|].
      split; [congruence|].
      rewrite Hl1, Hl2, !calls_app, Hlog. reflexivity.
Qed.

(** X9. Verbosity only prints.  From the same state, a verbose and a silent
    [train] call end the same way (same return or same exception), leave the
    same layer sequence, the same loss history and the same objects, and
    have made the same calls in the same order. *)
Theorem verbose_only_prints X Y lr epochs lf s :
  (train X Y lr epochs lf true s).1 = (train X Y lr epochs lf false s).1 /\
  layers (train X Y lr epochs lf true s).2 =
    layers (train X Y lr epochs lf false s).2 /\
  loss (train X Y lr epochs lf true s).2 =
    loss (train X Y lr epochs lf false s).2 /\
  (forall a, heap (train X Y lr epochs lf true s).2 a =
             heap (train X Y lr epochs lf false s).2 a) /\
  calls (log (train X Y lr epochs lf true s).2) =
    calls (log (train X Y lr epochs lf false s).2).
Proof.
  unfold train.
  destruct (train_loop_verbose_sim (layers s) X Y lr lf (range epochs) s s)
    as (Hr & (H1 & H2 & Hh) & Hloss & Hlog); try reflexivity.
  { repeat split. }
  split; [exact Hr|]. split; [congruence|]. split; [exact Hloss|].
  split; [|exact Hlog].
  intros a. destruct (decide (a ∈ layers s)) as [Hin|Hout].
  - apply Hh, Hin.
  - destruct (train_loop_cases X Y lr lf true (range epochs) s)
      as (r & s' & evs & errs & Hrun & _ & _ & _ & _ & _ & _ & Hfr & _).
    destruct (train_loop_cases X Y lr lf false (range epochs) s)
      as (r' & s'' & evs' & errs' & Hrun' & _ & _ & _ & _ & _ & _ & Hfr' & _).
    rewrite Hrun, Hrun'. simpl. rewrite (Hfr a Hout), (Hfr' a Hout).
    reflexivity.
Qed.

Lemma train_loop_app X Y lr lf verbose epochs1 : forall epochs2 s,
  train_loop (epochs1 ++ epochs2) X Y lr lf verbose s =
    bind (train_loop epochs1 X Y lr lf verbose)
      (fun _ => train_loop epochs2 X Y lr lf verbose) s.
Proof.
  induction epochs1 as [|epoch epochs1 IH]; intros epochs2 s; simpl.
  - reflexivity.
  - rewrite bind_assoc. apply bind_ext. intros error s1.
    rewrite bind_assoc. apply bind_ext. intros _ s2. apply IH.
Qed.

(** A silent loop does not look at the epoch indices. *)
Lemma train_loop_silent_length X Y lr lf epochs1 : forall epochs2 s,
  length epochs1 = length epochs2 ->
  train_loop epochs1 X Y lr lf false s = train_loop epochs2 X Y lr lf false s.
Proof.
  induction epochs1 as [|e1 epochs1 IH]; intros [|e2 epochs2] s Hlen;
    simpl in *; try discriminate; [reflexivity|].
  apply bind_ext. intros error s1. apply bind_ext. intros _ s2.
  apply IH. congruence.
Qed.

(** X10. Silent training can be split: one [train] call of [n + m] epochs
    does exactly what a call of [n] epochs followed by a call of [m] epochs
    does (the second call is not made when the first raises). *)
Theorem train_resumes X Y lr n m lf s :
  (0 <= n)%Z -> (0 <= m)%Z ->
  train X Y lr (n + m) lf false s =
    bind (train X Y lr n lf false) (fun _ => train X Y lr m lf false) s.
Proof.
  intros Hn Hm. unfold train.
  rewrite <- train_loop_app. apply train_loop_silent_length.
  rewrite length_app, !length_range. lia.
Qed.

Lemma count_multiples_of_50 (m : nat) :
  length (List.filter (fun z => (z mod 50 =? 0)%Z) (map Z.of_nat (seq 0 m))) =
    Z.to_nat ((Z.of_nat m + 49) / 50).
Proof.
  induction m as [|m IH].
  - reflexivity.
  - rewrite seq_S, map_app, List.filter_app, length_app, IH. simpl.
    destruct (Z.eqb_spec (Z.of_nat m mod 50) 0) as [Hz|Hnz]; simpl.
    + assert ((Z.of_nat (S m) + 49) / 50 = (Z.of_nat m + 49) / 50 + 1)%Z
        by (Z.div_mod_to_equations; lia).
      assert (0 <= (Z.of_nat m + 49) / 50)%Z
        by (Z.div_mod_to_equations; lia).
      lia.
    + assert ((Z.of_nat (S m) + 49) / 50 = (Z.of_nat m + 49) / 50)%Z
        by (Z.div_mod_to_equations; lia).
      lia.
Qed.

(** X11. A verbose [train] call whose epochs all complete prints
    [ceil(epochs / 50)] lines (none when [epochs] is not positive). *)
Theorem verbose_line_count X Y lr lf k epochs s :
  linear_contract -> layers s <> [] -> selects lf k ->
  exists evs s',
    train X Y lr epochs lf true s = (Ok tt, s') /\
    log s' = log s ++ evs /\
    length (printed evs) = Z.to_nat ((epochs + 49) / 50).
Proof.
  intros Hc Hne Hsel.
  destruct (train_loop_ok X Y lr lf k true Hc Hsel (range epochs) s Hne)
    as (evs & errors & s' & Hrun & _ & _ & Hlog & Htr).
  exists evs, s'. split; [exact Hrun|]. split; [exact Hlog|].
  destruct (train_trace_shows _ _ _ _ _ _ _ _ _ Htr) as [_ Hp].
  rewrite <- (length_map fst), Hp.
  rewrite (filter_combine_fst (fun n => (n mod 50 =? 0)%Z))
    by apply (train_trace_length _ _ _ _ _ _ _ _ _ Htr).
  unfold range. rewrite count_multiples_of_50.
  destruct (Z_lt_le_dec epochs 0) as [Hneg|Hpos].
  - replace (Z.to_nat epochs) with 0 by lia.
    change (Z.to_nat ((Z.of_nat 0 + 49) / 50)) with 0.
    assert ((epochs + 49) / 50 <= 0)%Z by (Z.div_mod_to_equations; lia).
    lia.
  - rewrite Z2Nat.id by exact Hpos. reflexivity.
Qed.

(** X12. The [train] call of the example in the class docstring passes the
    single string ["BinaryCrossEntropy, verbose=True"] as its loss function.
    The selector is matched exactly, so on any model that call raises the
    [ValueError] for this string after the forward pass of its first
    epoch. *)
Theorem docstring_example_raises X Y lr s :
  ~ supported docstring_selector /\
  train X Y lr 400 docstring_selector false s =
    (Raise (ValueError "BinaryCrossEntropy, verbose=True is not supported."),
     (predict X s).2).
Proof.
  assert (Hns : ~ supported docstring_selector)
    by (intros [H|H]; discriminate H).
  split; [exact Hns|].
  destruct (range_positive 400 eq_refl) as [rest Hr].
  unfold train. rewrite Hr. simpl.
  apply (bind_raise _ _ _ _ _ (run_epoch_unsupported X Y lr _ s Hns)).
Qed.

End Further.

(** * The further properties on the mock models *)

Lemma seven_outside : 7 ∉ layers Mock.three_layers.
Proof.
  intros Hin. vm_compute in Hin.
  repeat (apply elem_of_cons in Hin as [Hin|Hin]; [discriminate Hin|]).
  apply elem_of_nil in Hin. exact Hin.
Qed.

Lemma predict_effects_witness :
  layers Mock.three_layers <> [] /\
  (7 ∉ layers Mock.three_layers) /\
  (forall (o : Mock.layer) x, Mock.weight (forward o x).1 = Mock.weight o) /\
  exists out,
    (predict (Mock.Num 1) Mock.three_layers).1 = Ok out /\
    heap (predict (Mock.Num 1) Mock.three_layers).2 7 =
      heap Mock.three_layers 7 /\
    Mock.weight (heap (predict (Mock.Num 1) Mock.three_layers).2 0) =
      Mock.weight (heap Mock.three_layers 0).
Proof.
  split; [discriminate|]. split; [exact seven_outside|].
  split; [intros o x; reflexivity|].
  destruct (predict_effects (Mock.Num 1) Mock.three_layers)
    as (fev & out & _ & _ & _ & _ & Hret & Hframe & Hparams).
  exists out. split; [apply Hret; discriminate|]. split.
  - apply Hframe, seven_outside.
  - apply (Hparams Z Mock.weight). intros o x. reflexivity.
Defined.

Lemma bce_supported : supported "BinaryCrossEntropy".
Proof. left. reflexivity. Qed.

Lemma train_empty_model_witness :
  supported "BinaryCrossEntropy" /\ layers Mock.empty_model = [] /\
  (0 < 2)%Z /\
  _run_epoch (Mock.Num 1) (Mock.Num 5) (Mock.Num 1) "BinaryCrossEntropy"
    Mock.empty_model =
    (Raise (UnboundLocalError "forward"), Mock.empty_model) /\
  train (Mock.Num 1) (Mock.Num 5) (Mock.Num 1) 2 "BinaryCrossEntropy" true
    Mock.empty_model =
    (Raise (UnboundLocalError "forward"), Mock.empty_model).
Proof.
  split; [exact bce_supported|]. split; [reflexivity|].
  split; [reflexivity|].
  apply (train_empty_model (Mock.Num 1) (Mock.Num 5) (Mock.Num 1) 2
           "BinaryCrossEntropy" true Mock.empty_model).
  - exact bce_supported.
  - reflexivity.
  - reflexivity.
Defined.

Lemma train_invariants_witness :
  (train (Mock.Num 1) (Mock.Num 5) (Mock.Num 1) 4 "MeanSquaredError" false
     Mock.three_layers).1 = Ok tt /\
  (7 ∉ layers Mock.three_layers) /\
  exists errors,
    loss (train (Mock.Num 1) (Mock.Num 5) (Mock.Num 1) 4 "MeanSquaredError"
            false Mock.three_layers).2 = loss Mock.three_layers ++ errors /\
    length errors = Z.to_nat 4 /\
    heap (train (Mock.Num 1) (Mock.Num 5) (Mock.Num 1) 4 "MeanSquaredError"
            false Mock.three_layers).2 7 = heap Mock.three_layers 7.
Proof.
  split; [vm_compute; reflexivity|]. split; [exact seven_outside|].
  destruct (train_invariants (Mock.Num 1) (Mock.Num 5) (Mock.Num 1) 4
              "MeanSquaredError" false Mock.three_layers)
    as (evs & errors & _ & _ & Hloss & _ & _ & Hlen & Hframe).
  exists errors. split; [exact Hloss|]. split.
  - apply Hlen. vm_compute. reflexivity.
  - apply Hframe, seven_outside.
Defined.

Lemma train_resumes_witness :
  (0 <= 2)%Z /\ (0 <= 3)%Z /\
  train (Mock.Num 1) (Mock.Num 5) (Mock.Num 1) (2 + 3) "MeanSquaredError"
    false Mock.three_layers =
    bind (train (Mock.Num 1) (Mock.Num 5) (Mock.Num 1) 2 "MeanSquaredError"
            false)
      (fun _ => train (Mock.Num 1) (Mock.Num 5) (Mock.Num 1) 3
                  "MeanSquaredError" false)
      Mock.three_layers.
Proof.
  split; [discriminate|]. split; [discriminate|].
  apply (train_resumes (Mock.Num 1) (Mock.Num 5) (Mock.Num 1) 2 3
           "MeanSquaredError" Mock.three_layers); discriminate.
Defined.

Lemma verbose_line_count_witness :
  @linear_contract Mock.value Mock.layer _ _ /\
  layers Mock.three_layers <> [] /\
  selects "MeanSquaredError" MeanSquaredError /\
  exists evs s',
    train (Mock.Num 1) (Mock.Num 5) (Mock.Num 0) 120 "MeanSquaredError" true
      Mock.three_layers = (Ok tt, s') /\
    log s' = log Mock.three_layers ++ evs /\
    length (printed evs) = Z.to_nat ((120 + 49) / 50).
Proof.
  split; [exact mock_linear_contract|].
  split; [discriminate|]. split; [reflexivity|].
  apply (verbose_line_count (Mock.Num 1) (Mock.Num 5) (Mock.Num 0)
           "MeanSquaredError" MeanSquaredError 120 Mock.three_layers).
  - exact mock_linear_contract.
  - discriminate.
  - reflexivity.
Defined.

Lemma train_outcomes_witness :
  ((-1 <= 0)%Z /\
   (train (Mock.Num 1) (Mock.Num 5) (Mock.Num 1) (-1) "Huber" true
      Mock.three_layers).1 = Ok tt) /\
  ((0 < 3)%Z /\ ~ supported "Huber" /\
   (train (Mock.Num 1) (Mock.Num 5) (Mock.Num 1) 3 "Huber" true
      Mock.three_layers).1 =
     Raise (ValueError ("Huber" ++ " is not supported."))) /\
  (supported "BinaryCrossEntropy" /\ layers Mock.empty_model = [] /\
   (train (Mock.Num 1) (Mock.Num 5) (Mock.Num 1) 3 "BinaryCrossEntropy" true
      Mock.empty_model).1 = Raise (UnboundLocalError "forward")) /\
  (layers Mock.three_layers <> [] /\
   ((train (Mock.Num 1) (Mock.Num 5) (Mock.Num 1) 3 "BinaryCrossEntropy" true
       Mock.three_layers).1 = Ok tt \/
    (train (Mock.Num 1) (Mock.Num 5) (Mock.Num 1) 3 "BinaryCrossEntropy" true
       Mock.three_layers).1 = Raise UnpackError)).
Proof.
  split; [|split; [|split]].
  - split; [discriminate|].
    apply (proj1 (train_outcomes (Mock.Num 1) (Mock.Num 5) (Mock.Num 1) (-1)
                    "Huber" true Mock.three_layers)).
    discriminate.
  - split; [reflexivity|]. split; [exact huber_unsupported|].
    apply (proj1 (proj2 (train_outcomes (Mock.Num 1) (Mock.Num 5)
                           (Mock.Num 1) 3 "Huber" true Mock.three_layers))).
    + reflexivity.
    + exact huber_unsupported.
  - split; [exact bce_supported|]. split; [reflexivity|].
    apply (proj1 (proj2 (proj2 (train_outcomes (Mock.Num 1) (Mock.Num 5)
                                  (Mock.Num 1) 3 "BinaryCrossEntropy" true
                                  Mock.empty_model)))).
    + reflexivity.
    + exact bce_supported.
    + reflexivity.
  - split; [discriminate|].
    apply (proj1 (proj2 (proj2 (proj2
             (train_outcomes (Mock.Num 1) (Mock.Num 5) (Mock.Num 1) 3
                "BinaryCrossEntropy" true Mock.three_layers))))).
    + reflexivity.
    + exact bce_supported.
    + discriminate.
Defined.

(** The layer that breaks the contract. *)
#[local] Existing Instance Broken.layer_methods.

Lemma broken_pair_not_triple :
  ~ is_triple
      (backward (heap (predict (Mock.Num 1) Broken.one_layer).2 0)
         (loss_backward
            (loss_forward
               (loss_new MeanSquaredError (Mock.Num 1) (Mock.Num 5))).1).2).2.
Proof. intros (g & dW & dB & Heq). vm_compute in Heq. discriminate Heq. Qed.

Lemma loss_recorded_before_backward_witness :
  layers Broken.one_layer <> [] /\
  selects "MeanSquaredError" MeanSquaredError /\
  exists r s' error out,
    _run_epoch (Mock.Num 1) (Mock.Num 5) (Mock.Num 1) "MeanSquaredError"
      Broken.one_layer = (r, s') /\
    (r = Ok error \/ r = Raise UnpackError) /\
    loss s' = loss Broken.one_layer ++ [error] /\
    (predict (Mock.Num 1) Broken.one_layer).1 = Ok out /\
    error = (loss_forward (loss_new MeanSquaredError out (Mock.Num 5))).2.
Proof.
  split; [discriminate|]. split; [reflexivity|].
  apply (loss_recorded_before_backward (Mock.Num 1) (Mock.Num 5) (Mock.Num 1)
           "MeanSquaredError" MeanSquaredError Broken.one_layer).
  - discriminate.
  - reflexivity.
Defined.

Lemma unpack_failure_at_last_layer_witness :
  layers Broken.one_layer = [] ++ [0] /\
  selects "MeanSquaredError" MeanSquaredError /\
  (predict (Mock.Num 1) Broken.one_layer).1 = Ok (Mock.Num 1) /\
  type (heap (predict (Mock.Num 1) Broken.one_layer).2 0) = "Linear" /\
  exists s',
    _run_epoch (Mock.Num 1) (Mock.Num 5) (Mock.Num 1) "MeanSquaredError"
      Broken.one_layer = (Raise UnpackError, s') /\
    loss s' = [Mock.Num 16] /\
    Broken.hits (heap s' 0) = 0%Z.
Proof.
  split; [reflexivity|]. split; [reflexivity|].
  split; [reflexivity|]. split; [reflexivity|].
  destruct (unpack_failure_at_last_layer (Mock.Num 1) (Mock.Num 5)
              (Mock.Num 1) "MeanSquaredError" MeanSquaredError [] 0
              (Mock.Num 1) Broken.one_layer)
    as (s' & Hrun & Hloss & _);
    [reflexivity|reflexivity|reflexivity|reflexivity
    |exact broken_pair_not_triple|].
  exists s'. split; [exact Hrun|]. split; [exact Hloss|].
  apply (f_equal (fun r => Broken.hits (heap r.2 0))) in Hrun.
  exact (eq_sym Hrun).
Defined.
